(** * Working_OneAPICall.py: the fantasy-football dashboard script

    A shallow embedding of the Streamlit script [Working_OneAPICall.py]:
    the cached fetcher [fetch_data], the reconciliation of the two record
    sets of the league document (key coercion, identifier sets, filtering,
    left merge, numeric normalisation of [total]) and the points-leader
    step, followed by the properties the specification states about them.

    The script is a straight line of pandas and Streamlit calls.  The
    embedding keeps its shape:
    - a JSON object of the league document is a [gmap string cell];
    - a [DataFrame] is its set of column labels and its list of rows;
    - every [st.*] call emits a [st_event]; an uncaught Python exception
      ends the render pass, keeping what was emitted before it;
    - [@st.cache_data] is an explicit map from league id to the recorded
      outcome of [fetch_data]. *)

From Stdlib Require Import ZArith String Ascii.
From stdpp Require Import gmap strings list sets pretty sorting.

Local Open Scope string_scope.
Local Open Scope list_scope.
Local Open Scope Z_scope.

Set Warnings "-clear-no-such-hyp".

(** ** Cells, records and data frames *)

(** A cell of a frame.  [NaN] is what pandas puts where a record has no
    such key (and where a merge finds no partner); [PyNone] is a JSON
    [null]; numbers are the integers the endpoint delivers, of a
    magnitude up to 2^53 (what a JSON number carries exactly, also once
    pandas holds it as a float). *)
Inductive cell : Type :=
  | NaN
  | PyNone
  | PyInt (z : Z)
  | PyStr (s : string).

#[global] Instance cell_eq_dec : EqDecision cell.
Proof. solve_decision. Defined.

#[global] Instance cell_countable : Countable cell.
Proof.
  refine (inj_countable'
    (λ c, match c with
          | NaN => inl (inl ())
          | PyNone => inl (inr ())
          | PyInt z => inr (inl z)
          | PyStr s => inr (inr s)
          end)
    (λ x, match x with
          | inl (inl _) => NaN
          | inl (inr _) => PyNone
          | inr (inl z) => PyInt z
          | inr (inr s) => PyStr s
          end) _).
  by intros [].
Defined.

(** [str(v)], as [astype(str)] and f-strings apply it to one value. *)
Definition py_str (c : cell) : string :=
  match c with
  | NaN => "nan"
  | PyNone => "None"
  | PyInt z => pretty z
  | PyStr s => s
  end.

Record DataFrame : Type := mkDataFrame {
  columns : gset string;
  rows : list (gmap string cell);
}.

(** [pd.DataFrame(records)]: the columns are the keys that occur in some
    record; a record lacking a key reads [NaN] there. *)
Definition pd_DataFrame (records : list (gmap string cell)) : DataFrame :=
  {| columns := ⋃ (dom <$> records); rows := records |}.

Definition cell_at (r : gmap string cell) (c : string) : cell :=
  default NaN (r !! c).

(** [df.empty]: no rows, or no columns. *)
Definition df_empty (df : DataFrame) : bool :=
  bool_decide (rows df = [] ∨ columns df = ∅).

(** [df[c]] as a series of cells. *)
Definition series (df : DataFrame) (c : string) : list cell :=
  (λ r, cell_at r c) <$> rows df.

(** [df[c] = f(df[c])], element by element. *)
Definition assign (c : string) (f : cell → cell) (df : DataFrame) : DataFrame :=
  {| columns := {[c]} ∪ columns df;
     rows := (λ r, <[c := f (cell_at r c)]> r) <$> rows df |}.

(** The dtype pandas infers for a column of a frame built from records.
    A string anywhere leaves the column [object]; integers make it
    [int64], or [float64] as soon as one value is null or missing; a
    column of nothing but nulls is [float64] when a value is missing and
    [object] when every record has the key. *)
Inductive dtype : Type :=
  | Int64
  | Float64
  | Object.

Definition is_str (c : cell) : bool :=
  match c with PyStr _ => true | _ => false end.

Definition is_int (c : cell) : bool :=
  match c with PyInt _ => true | _ => false end.

Definition is_nan (c : cell) : bool :=
  match c with NaN => true | _ => false end.

Definition is_null (c : cell) : bool :=
  match c with NaN | PyNone => true | _ => false end.

Definition infer_dtype (s : list cell) : dtype :=
  if existsb is_str s then Object
  else if existsb is_int s then
    if existsb is_null s then Float64 else Int64
  else if existsb is_nan s then Float64 else Object.

(** [str] of one value of a column of dtype [d]: in a [float64] column
    an integer is held as a float and printed with its [.0], and a null is
    [nan]; in the other columns the value is printed as it is. *)
Definition str_of (d : dtype) (c : cell) : string :=
  match d with
  | Float64 =>
      match c with
      | PyInt z => pretty z +:+ ".0"
      | _ => "nan"
      end
  | _ => py_str c
  end.

(** [s.astype(str)], at the value [c] of the series [s]. *)
Definition astype_str (s : list cell) (c : cell) : cell :=
  PyStr (str_of (infer_dtype s) c).

(** [set(df[c].unique())]: the Python set of the values of a column. *)
Definition id_set (df : DataFrame) (c : string) : gset cell :=
  list_to_set (series df c).

(** [df[df[c].isin(ids)]] *)
Definition isin_filter (c : string) (ids : gset cell) (df : DataFrame) : DataFrame :=
  {| columns := columns df;
     rows := filter (λ r, cell_at r c ∈ ids) (rows df) |}.

(** [df[[c1, ..., cn]]], once the labels are known to be columns. *)
Definition select (cs : list string) (df : DataFrame) : DataFrame :=
  {| columns := list_to_set cs;
     rows := (λ r, filter (λ kv, kv.1 ∈ cs) r) <$> rows df |}.

(** ** Merging *)

(** A label present on both sides gets pandas' default suffixes. *)
Definition suffixed (sfx : string) (overlap : gset string) (c : string) : string :=
  if decide (c ∈ overlap) then c +:+ sfx else c.

Definition relabel (f : string → string) (r : gmap string cell) : gmap string cell :=
  kmap (M1 := gmap string) (M2 := gmap string) f r.

Definition partners (right : DataFrame) (right_on : string) (k : cell)
  : list (gmap string cell) :=
  filter (λ e, cell_at e right_on = k) (rows right).

(** [left.merge(right, left_on=..., right_on=..., how='left')]: the rows of
    [left] in their order, each paired with its partners of [right] in
    their order; a row without a partner is kept, its right-hand cells
    reading [NaN]. *)
Definition merge_left (left right : DataFrame) (left_on right_on : string) : DataFrame :=
  let overlap := columns left ∩ columns right in
  let lname := suffixed "_x" overlap in
  let rname := suffixed "_y" overlap in
  {| columns := set_map lname (columns left) ∪ set_map rname (columns right);
     rows := rows left ≫= λ s,
       match partners right right_on (cell_at s left_on) with
       | [] => [relabel lname s]
       | ps => (λ e, relabel lname s ∪ relabel rname e) <$> ps
       end |}.

(** The same merge with [how='inner']: a row without a partner is dropped. *)
Definition merge_inner (left right : DataFrame) (left_on right_on : string) : DataFrame :=
  let overlap := columns left ∩ columns right in
  let lname := suffixed "_x" overlap in
  let rname := suffixed "_y" overlap in
  {| columns := set_map lname (columns left) ∪ set_map rname (columns right);
     rows := rows left ≫= λ s,
       (λ e, relabel lname s ∪ relabel rname e)
         <$> partners right right_on (cell_at s left_on) |}.

(** ** Numeric series *)

(** The value of a cell of a numeric column. *)
Definition num (c : cell) : Z :=
  match c with PyInt z => z | _ => 0 end.

Definition numeric_series (df : DataFrame) (c : string) : list Z :=
  num <$> series df c.

(** [s.max()] *)
Definition series_max (l : list Z) : option Z :=
  match l with
  | [] => None
  | x :: l' => Some (foldl Z.max x l')
  end.

(** [s.idxmax()]: the position of the first occurrence of the maximum. *)
Fixpoint idxmax_from (i best_i : nat) (best : Z) (l : list Z) : nat :=
  match l with
  | [] => best_i
  | x :: l' =>
      if decide (best < x) then idxmax_from (S i) i x l'
      else idxmax_from (S i) best_i best l'
  end.

Definition idxmax (l : list Z) : option nat :=
  match l with
  | [] => None
  | x :: l' => Some (idxmax_from 1 0 x l')
  end.

(** [df.nlargest(n, c)]: the [n] rows of largest [c], largest first, rows
    of equal [c] in their original order. *)
Fixpoint insert_desc (c : string) (r : gmap string cell) (l : list (gmap string cell))
  : list (gmap string cell) :=
  match l with
  | [] => [r]
  | r' :: l' =>
      if decide (num (cell_at r' c) < num (cell_at r c)) then r :: l
      else r' :: insert_desc c r l'
  end.

Definition nlargest (n : nat) (c : string) (df : DataFrame) : DataFrame :=
  {| columns := columns df;
     rows := take n (foldl (λ acc r, insert_desc c r acc) [] (rows df)) |}.

(** ** The page: emitted elements and exceptions *)

Inductive st_event : Type :=
  | st_title (s : string)
  | st_write (s : string)
  | st_subheader (s : string)
  | st_write_df (df : DataFrame)
  | st_warning (msg : string) (ids : gset cell)
  | st_error (msg : string)
  | st_dataframe (df : DataFrame)
  | st_altair_chart (title : string) (df : DataFrame)
  | st_metric (label : string) (value : Z).

Inductive exn : Type :=
  | KeyError (label : string)
  | ValueError (field : string).

Inductive outcome (A : Type) : Type :=
  | Returned (a : A)
  | Raised (e : exn).
Arguments Returned {A} a.
Arguments Raised {A} e.

(** A piece of the script: what it put on the page, and how it ended. *)
Definition ui (A : Type) : Type := list st_event * outcome A.

#[global] Instance ui_ret : MRet ui := λ A a, ([], Returned a).

#[global] Instance ui_bind : MBind ui := λ A B k m,
  match m with
  | (evs, Returned a) => let '(evs', o) := k a in (evs ++ evs', o)
  | (evs, Raised e) => (evs, Raised e)
  end.

Definition emit (e : st_event) : ui unit := ([e], Returned ()).
Definition raise {A} (e : exn) : ui A := ([], Raised e).

Definition when (b : bool) (m : ui unit) : ui unit :=
  if b then m else mret ().

Definition events {A} (m : ui A) : list st_event := m.1.
Definition result {A} (m : ui A) : outcome A := m.2.

(** [df[c]]: [KeyError] when [c] is not a column. *)
Definition getitem (df : DataFrame) (c : string) : ui (list cell) :=
  if decide (c ∈ columns df) then mret (series df c) else raise (KeyError c).

(** [df[[c1, ..., cn]]]: [KeyError] on the first label that is not a column. *)
Definition getitems (df : DataFrame) (cs : list string) : ui DataFrame :=
  match filter (λ c, c ∉ columns df) cs with
  | [] => mret (select cs df)
  | c :: _ => raise (KeyError c)
  end.

(** [df[c] = df[c].astype(str)] *)
Definition setitem_astype_str (df : DataFrame) (c : string) : ui DataFrame :=
  s ← getitem df c;
  mret (assign c (astype_str s) df).

(** Rendering an Altair chart of [df]: a field that is not a column has no
    inferable type, which is a [ValueError]. *)
Definition altair_chart (title : string) (fields : list string) (df : DataFrame)
  : ui unit :=
  match filter (λ c, c ∉ columns df) fields with
  | [] => emit (st_altair_chart title df)
  | c :: _ => raise (ValueError c)
  end.

(** ** The league document and the fetcher *)

(** The body of the details endpoint:
    [{league: {name}, league_entries: [...], standings: [...]}]. *)
Record details : Type := mkDetails {
  league_name : cell;
  league_entries : list (gmap string cell);
  standings : list (gmap string cell);
}.

Record response : Type := mkResponse {
  status_code : Z;
  json : details;
}.

Definition details_url (league_id : string) : string :=
  "https://draft.premierleague.com/api/league/" +:+ league_id +:+ "/details".

(** The body of [fetch_data]. *)
Definition fetch_data (requests_get : string → response) (league_id : string)
  : ui (option details) :=
  let response := requests_get (details_url league_id) in
  if decide (status_code response = 200) then mret (Some (json response))
  else
    emit (st_error "Failed to fetch data. Please check the League ID.");;
    mret None.

(** [@st.cache_data]: per league id, the elements and the value of the
    first call; a later call replays them without running the body. *)
Definition cache : Type := gmap string (list st_event * option details).

Definition cached_fetch_data (requests_get : string → response)
    (c : cache) (league_id : string) : cache * ui (option details) :=
  match c !! league_id with
  | Some (evs, v) => (c, (evs, Returned v))
  | None =>
      match fetch_data requests_get league_id with
      | (evs, Returned v) => (<[league_id := (evs, v)]> c, (evs, Returned v))
      | (evs, Raised e) => (c, (evs, Raised e))
      end
  end.

(** ** The reconciler *)

Definition entry_columns : list string :=
  ["id"; "entry_name"; "joined_time"; "player_first_name"; "player_last_name"].

Definition standings_ids (standings_df : DataFrame) : gset cell :=
  id_set standings_df "league_entry".

Definition entries_ids (league_entries_df : DataFrame) : gset cell :=
  id_set league_entries_df "id".

Definition missing_in_entries (standings_df league_entries_df : DataFrame) : gset cell :=
  standings_ids standings_df ∖ entries_ids league_entries_df.

Definition missing_in_standings (standings_df league_entries_df : DataFrame) : gset cell :=
  entries_ids league_entries_df ∖ standings_ids standings_df.

Definition valid_standings_df (standings_df league_entries_df : DataFrame) : DataFrame :=
  isin_filter "league_entry" (entries_ids league_entries_df) standings_df.

Definition valid_entries_df (standings_df league_entries_df : DataFrame) : DataFrame :=
  isin_filter "id" (standings_ids standings_df) league_entries_df.

(** The frame of lines 72-75, once the five entry columns exist. *)
Definition merged_df (standings_df league_entries_df : DataFrame) : DataFrame :=
  merge_left (valid_standings_df standings_df league_entries_df)
    (select entry_columns (valid_entries_df standings_df league_entries_df))
    "league_entry" "id".

(** The two frames as lines 45-46 leave them. *)
Definition keyed_standings (data_standings : list (gmap string cell)) : DataFrame :=
  let standings_df := pd_DataFrame data_standings in
  assign "league_entry" (astype_str (series standings_df "league_entry")) standings_df.

Definition keyed_entries (data_entries : list (gmap string cell)) : DataFrame :=
  let league_entries_df := pd_DataFrame data_entries in
  assign "id" (astype_str (series league_entries_df "id")) league_entries_df.

(** The key of a standing record and of an entry record, as lines 45-46
    coerce it within its column. *)
Definition standing_key (data_standings : list (gmap string cell))
    (s : gmap string cell) : string :=
  str_of (infer_dtype (series (pd_DataFrame data_standings) "league_entry"))
    (cell_at s "league_entry").

Definition entry_key (data_entries : list (gmap string cell))
    (e : gmap string cell) : string :=
  str_of (infer_dtype (series (pd_DataFrame data_entries) "id")) (cell_at e "id").

(** The warnings of lines 55-58: one per non-empty difference. *)
Definition report_mismatches (standings_df league_entries_df : DataFrame) : ui unit :=
  when (bool_decide (missing_in_entries standings_df league_entries_df ≠ ∅))
    (emit (st_warning "IDs in standings but not in league entries: "
             (missing_in_entries standings_df league_entries_df)));;
  when (bool_decide (missing_in_standings standings_df league_entries_df ≠ ∅))
    (emit (st_warning "IDs in league entries but not in standings: "
             (missing_in_standings standings_df league_entries_df))).

(** [top_scorer[c]] on the row picked by [.loc]. *)
Definition row_getitem (df : DataFrame) (r : gmap string cell) (c : string) : ui cell :=
  if decide (c ∈ columns df) then mret (cell_at r c) else raise (KeyError c).

(** [merged_df.loc[merged_df['total'].idxmax()]]: the merged frame carries
    the default index 0, 1, ..., so the label is the position. *)
Definition top_scorer (merged_df : DataFrame) : option (gmap string cell) :=
  i ← idxmax (numeric_series merged_df "total"); rows merged_df !! i.

(** Lines 167-174. *)
Definition highlight_top_scorer (merged_df : DataFrame) : ui unit :=
  let no_leader :=
    emit (st_write "No valid data available to determine the top scorer.") in
  if df_empty merged_df then no_leader
  else
    total ← getitem merged_df "total";
    match series_max (num <$> total) with
    | Some m =>
        if decide (m > 0) then
          match top_scorer merged_df with
          | Some r =>
              emit (st_write "## Points Leader");;
              total ← row_getitem merged_df r "total";
              emit (st_metric "Top Scorer" (num total));;
              first ← row_getitem merged_df r "player_first_name";
              last ← row_getitem merged_df r "player_last_name";
              emit (st_write ("Player: " +:+ py_str first +:+ " " +:+ py_str last))
          | None => raise (ValueError "idxmax")
          end
        else no_leader
    | None => no_leader
    end.

Section Script.

(** The conversion of a string to a number inside [pd.to_numeric]
    ([None] when the string is no number). *)
Context (str_to_num : string → option Z).

(** [pd.to_numeric(v, errors='coerce')] on one value: [None] is NaN. *)
Definition to_numeric (c : cell) : option Z :=
  match c with
  | NaN | PyNone => None
  | PyInt z => Some z
  | PyStr s => str_to_num s
  end.

(** [.fillna(d)] on one value. *)
Definition fillna (d : Z) (o : option Z) : cell := PyInt (default d o).

(** The frame line 85 leaves. *)
Definition normalize_total (merged_df : DataFrame) : DataFrame :=
  assign "total" (λ c, fillna 0 (to_numeric c)) merged_df.

(** Line 85: [merged_df['total']] is a [KeyError] without that column;
    the coercion itself raises nothing ([errors='coerce']). *)
Definition coerce_total (merged_df : DataFrame) : ui DataFrame :=
  getitem merged_df "total";;
  mret (normalize_total merged_df).

(** Lines 80-174: the page of a non-empty merged frame. *)
Definition present (merged_df : DataFrame) : ui unit :=
  emit (st_write "## Merged Data");;
  emit (st_write_df merged_df);;
  merged_df ← coerce_total merged_df;
  emit (st_write "## League Standings");;
  shown ← getitems merged_df
    ["entry_name"; "player_first_name"; "player_last_name"; "total"];
  emit (st_dataframe shown);;
  emit (st_write "## Total Points Distribution");;
  altair_chart "Total Points Distribution" ["entry_name"; "total"] merged_df;;
  emit (st_write "## Points Distribution Histogram");;
  altair_chart "Histogram of Total Points" ["total"] merged_df;;
  emit (st_write "## Top 10 Scoring Teams");;
  altair_chart "Top 10 Scoring Teams" ["entry_name"; "total"]
    (nlargest 10 "total" merged_df);;
  emit (st_write "## Win-Loss Record");;
  altair_chart "Wins" ["entry_name"; "matches_won"] merged_df;;
  altair_chart "Losses" ["entry_name"; "matches_lost"] merged_df;;
  altair_chart "Draws" ["entry_name"; "matches_drawn"] merged_df;;
  highlight_top_scorer merged_df.

(** Lines 60-78: filtering, the emptiness checks and the merge; then the
    page of the merged frame. *)
Definition merge_and_present (standings_df league_entries_df : DataFrame) : ui unit :=
  let valid_standings := valid_standings_df standings_df league_entries_df in
  let valid_entries := valid_entries_df standings_df league_entries_df in
  when (df_empty valid_standings)
    (emit (st_error "No valid standings data available after filtering."));;
  when (df_empty valid_entries)
    (emit (st_error "No valid league entries data available after filtering."));;
  if negb (df_empty valid_standings) && negb (df_empty valid_entries) then
    right ← getitems valid_entries entry_columns;
    let merged_df := merge_left valid_standings right "league_entry" "id" in
    if df_empty merged_df then
      emit (st_error
        "Merged Data is empty after attempting to merge valid entries and standings.")
    else present merged_df
  else mret ().

(** Lines 48-174, on the two frames whose key columns were coerced. *)
Definition reconcile (standings_df league_entries_df : DataFrame) : ui unit :=
  report_mismatches standings_df league_entries_df;;
  merge_and_present standings_df league_entries_df.

(** Lines 27-174: the branch [if data:]. *)
Definition process (data : details) : ui unit :=
  emit (st_subheader ("League: " +:+ py_str (league_name data)));;
  let league_entries_df := pd_DataFrame (league_entries data) in
  let standings_df := pd_DataFrame (standings data) in
  emit (st_write "## Raw League Entries Data");;
  emit (st_write_df league_entries_df);;
  emit (st_write "## Raw Standings Data");;
  emit (st_write_df standings_df);;
  standings_df ← setitem_astype_str standings_df "league_entry";
  league_entries_df ← setitem_astype_str league_entries_df "id";
  reconcile standings_df league_entries_df.

(** One render pass of the script for the id typed into the text input. *)
Definition app (requests_get : string → response) (c : cache) (league_id : string)
  : cache * ui unit :=
  let '(c', fetched) := cached_fetch_data requests_get c league_id in
  (c',
   emit (st_title "Premier League Fantasy Football Dashboard");;
   emit (st_write "Welcome to the Premier League Fantasy Football Dashboard!");;
   data ← fetched;
   match data with
   | Some data => process data
   | None => emit (st_write "Enter a valid League ID to see the standings.")
   end).

End Script.

(** ** Integer literals

    The strings [pd.to_numeric] reads as integers: an optional sign and
    decimal digits. *)

Definition digit_of (a : ascii) : option Z :=
  let n := Z.of_N (N_of_ascii a) in
  if decide (48 ≤ n ≤ 57) then Some (n - 48) else None.

Fixpoint digits_from (acc : Z) (s : string) : option Z :=
  match s with
  | EmptyString => Some acc
  | String a s' => d ← digit_of a; digits_from (10 * acc + d) s'
  end.

Definition unsigned_literal (s : string) : option Z :=
  match s with
  | EmptyString => None
  | _ => digits_from 0 s
  end.

Definition int_literal (s : string) : option Z :=
  match s with
  | String "-"%char s' => Z.opp <$> unsigned_literal s'
  | String "+"%char s' => unsigned_literal s'
  | _ => unsigned_literal s
  end.

(** ** The scenario of the specification *)

Definition rec (kvs : list (string * cell)) : gmap string cell := list_to_map kvs.

Definition scenario_entries : list (gmap string cell) :=
  [ rec [("id", PyStr "1"); ("entry_name", PyStr "A"); ("joined_time", PyStr "t1");
         ("player_first_name", PyStr "Ann"); ("player_last_name", PyStr "Archer")];
    rec [("id", PyStr "2"); ("entry_name", PyStr "B"); ("joined_time", PyStr "t2");
         ("player_first_name", PyStr "Bob"); ("player_last_name", PyStr "Baker")] ].

Definition scenario_standings : list (gmap string cell) :=
  [ rec [("league_entry", PyStr "1"); ("total", PyStr "50")];
    rec [("league_entry", PyStr "3"); ("total", PyStr "30")] ].

Definition scenario : details :=
  {| league_name := PyStr "L";
     league_entries := scenario_entries;
     standings := scenario_standings |}.

(** ** Words of the specification *)

(** The symmetric difference of two identifier sets. *)
Definition symmetric_difference (X Y : gset cell) : gset cell :=
  (X ∪ Y) ∖ (X ∩ Y).


(** What lines 32-42 put on the page: the league name and the raw frames. *)
Definition raw_page (data : details) : list st_event :=
  [ st_subheader ("League: " +:+ py_str (league_name data));
    st_write "## Raw League Entries Data";
    st_write_df (pd_DataFrame (league_entries data));
    st_write "## Raw Standings Data";
    st_write_df (pd_DataFrame (standings data)) ].

(** The reconciler's output: the merged frame with its [total] coerced. *)
Definition reconciled (str_to_num : string → option Z) (data : details) : DataFrame :=
  normalize_total str_to_num
    (merged_df (keyed_standings (standings data)) (keyed_entries (league_entries data))).

(** The table of line 89. *)
Definition league_standings : list string :=
  ["entry_name"; "player_first_name"; "player_last_name"; "total"].


(** ** Sample documents *)

(** A head-to-head league of three, two of them level on points. *)
Definition h2h_league : details :=
  {| league_name := PyStr "H2H";
     league_entries :=
       [ rec [("id", PyInt 11); ("entry_name", PyStr "Alpha"); ("joined_time", PyStr "t1");
              ("player_first_name", PyStr "Ann"); ("player_last_name", PyStr "Archer")];
         rec [("id", PyInt 12); ("entry_name", PyStr "Beta"); ("joined_time", PyStr "t2");
              ("player_first_name", PyStr "Bob"); ("player_last_name", PyStr "Baker")];
         rec [("id", PyInt 13); ("entry_name", PyStr "Gamma"); ("joined_time", PyStr "t3");
              ("player_first_name", PyStr "Cy"); ("player_last_name", PyStr "Cole")] ];
     standings :=
       [ rec [("league_entry", PyInt 11); ("total", PyInt 40); ("matches_won", PyInt 1);
              ("matches_lost", PyInt 2); ("matches_drawn", PyInt 0)];
         rec [("league_entry", PyInt 12); ("total", PyInt 70); ("matches_won", PyInt 2);
              ("matches_lost", PyInt 1); ("matches_drawn", PyInt 0)];
         rec [("league_entry", PyInt 13); ("total", PyInt 70); ("matches_won", PyInt 2);
              ("matches_lost", PyInt 1); ("matches_drawn", PyInt 0)] ] |}.

(** The same league before any points were scored: no total is a number. *)
Definition unscored_league : details :=
  {| league_name := PyStr "H2H";
     league_entries := league_entries h2h_league;
     standings :=
       [ rec [("league_entry", PyInt 11); ("total", PyStr "n/a"); ("matches_won", PyInt 0);
              ("matches_lost", PyInt 0); ("matches_drawn", PyInt 0)];
         rec [("league_entry", PyInt 12); ("total", PyNone); ("matches_won", PyInt 0);
              ("matches_lost", PyInt 0); ("matches_drawn", PyInt 0)] ] |}.

(** A league whose standings array is empty. *)
Definition undrafted_league : details :=
  {| league_name := PyStr "New";
     league_entries := scenario_entries;
     standings := [] |}.


(** An endpoint that knows no league. *)
Definition not_found (url : string) : response :=
  {| status_code := 404; json := mkDetails PyNone [] [] |}.

(** An endpoint that serves the head-to-head league under every id. *)
Definition serves_h2h (url : string) : response :=
  {| status_code := 200; json := h2h_league |}.

(** The one row the scenario reconciles to. *)
Definition scenario_row : gmap string cell :=
  rec [("league_entry", PyStr "1"); ("total", PyInt 50); ("id", PyStr "1");
       ("entry_name", PyStr "A"); ("joined_time", PyStr "t1");
       ("player_first_name", PyStr "Ann"); ("player_last_name", PyStr "Archer")].

(** ** Pages *)

(** The page of [m] with the elements [evs] put before it. *)
Definition prepend {A} (evs : list st_event) (m : ui A) : ui A :=
  (evs ++ events m, result m).

(** What lines 80-165 put on the page of a merged frame that has every
    column they read: the sections before the points leader. *)
Definition sections (str_to_num : string → option Z) (merged_df : DataFrame)
  : list st_event :=
  let df := normalize_total str_to_num merged_df in
  [ st_write "## Merged Data"; st_write_df merged_df;
    st_write "## League Standings"; st_dataframe (select league_standings df);
    st_write "## Total Points Distribution";
    st_altair_chart "Total Points Distribution" df;
    st_write "## Points Distribution Histogram";
    st_altair_chart "Histogram of Total Points" df;
    st_write "## Top 10 Scoring Teams";
    st_altair_chart "Top 10 Scoring Teams" (nlargest 10 "total" df);
    st_write "## Win-Loss Record";
    st_altair_chart "Wins" df; st_altair_chart "Losses" df;
    st_altair_chart "Draws" df ].

(** The columns the page of a merged frame reads. *)
Definition page_columns : list string :=
  ["total"; "entry_name"; "player_first_name"; "player_last_name";
   "matches_won"; "matches_lost"; "matches_drawn"].

(** Rows in descending order of column [c]. *)
Definition descending (c : string) (a b : gmap string cell) : Prop :=
  num (cell_at b c) ≤ num (cell_at a c).

(** A league whose entries array is empty. *)
Definition abandoned_league : details :=
  {| league_name := PyStr "Old";
     league_entries := [];
     standings := scenario_standings |}.

(** A league whose standings are about other teams than its entries. *)
Definition stale_league : details :=
  {| league_name := PyStr "Stale";
     league_entries := scenario_entries;
     standings := [ rec [("league_entry", PyStr "8"); ("total", PyStr "10")] ] |}.

(** An endpoint that is down. *)
Definition unavailable (url : string) : response :=
  {| status_code := 503; json := mkDetails PyNone [] [] |}.

(** A piece of the script that puts no [st.error] on the page. *)
Definition no_st_error {A} (m : ui A) : Prop :=
  ∀ msg, st_error msg ∉ events m.

(** A league whose entries carry no player names. *)
Definition nameless_league : details :=
  {| league_name := PyStr "N";
     league_entries := [ rec [("id", PyInt 1); ("entry_name", PyStr "A")] ];
     standings := [ rec [("league_entry", PyInt 1); ("total", PyInt 3)] ] |}.

(** A piece of the script all of whose page elements satisfy [P]. *)
Definition emits_only {A} (P : st_event → Prop) (m : ui A) : Prop :=
  ∀ e, e ∈ events m → P e.

(** A page element other than the table of [st.dataframe]. *)
Definition no_table (e : st_event) : Prop :=
  match e with st_dataframe _ => False | _ => True end.

(** A league in which one standing record has no [league_entry], so that
    pandas holds the column as floats, and whose entry has the id that
    the float prints as. *)
Definition gapped_league : details :=
  {| league_name := PyStr "G";
     league_entries :=
       [ rec [("id", PyStr "1.0"); ("entry_name", PyStr "A"); ("joined_time", PyStr "t");
              ("player_first_name", PyStr "Ann"); ("player_last_name", PyStr "Archer")] ];
     standings :=
       [ rec [("league_entry", PyInt 1); ("total", PyInt 7)];
         rec [("total", PyInt 5)] ] |}.

(** * Properties *)

(** ** The page monad *)

Lemma bind_returned {A B} (evs : list st_event) (a : A) (k : A → ui B) :
  (evs, Returned a) ≫= k = (evs ++ events (k a), result (k a)).
Proof. unfold mbind, ui_bind, events, result. by destruct (k a). Qed.

Lemma bind_raised {A B} (evs : list st_event) (e : exn) (k : A → ui B) :
  (evs, Raised e) ≫= k = (evs, Raised e).
Proof. done. Qed.

Lemma emit_bind {B} (e : st_event) (k : unit → ui B) :
  emit e ≫= k = (e :: events (k ()), result (k ())).
Proof. unfold emit. by rewrite bind_returned. Qed.

Lemma when_false_bind {B} (m : ui unit) (k : unit → ui B) :
  when false m ≫= k = k ().
Proof. unfold when, mret, ui_ret. rewrite bind_returned. by destruct (k ()). Qed.

(** ** Cells and frames *)

Lemma cell_at_insert_eq (r : gmap string cell) c v : cell_at (<[c := v]> r) c = v.
Proof. unfold cell_at. by rewrite lookup_insert_eq. Qed.

Lemma cell_at_insert_ne (r : gmap string cell) c c' v :
  c ≠ c' → cell_at (<[c := v]> r) c' = cell_at r c'.
Proof. intros. unfold cell_at. by rewrite lookup_insert_ne. Qed.

Lemma cell_at_select (cs : list string) (r : gmap string cell) c :
  c ∈ cs → cell_at (filter (λ kv, kv.1 ∈ cs) r) c = cell_at r c.
Proof.
  intros Hc. unfold cell_at. rewrite map_lookup_filter.
  destruct (r !! c) as [v|] eqn:E; simpl; [|done].
  by rewrite option_guard_True.
Qed.

Lemma elem_of_id_set (df : DataFrame) c k :
  k ∈ id_set df c ↔ ∃ r, r ∈ rows df ∧ cell_at r c = k.
Proof.
  unfold id_set, series. rewrite elem_of_list_to_set, list_elem_of_fmap.
  naive_solver.
Qed.

(** ** Step 2: the identifier sets *)

Lemma elem_of_symmetric_difference (X Y : gset cell) k :
  k ∈ symmetric_difference X Y ↔ (k ∈ X ∧ k ∉ Y) ∨ (k ∈ Y ∧ k ∉ X).
Proof. unfold symmetric_difference. set_solver. Qed.

Lemma report_mismatches_events (sdf edf : DataFrame) :
  report_mismatches sdf edf =
    ((if bool_decide (missing_in_entries sdf edf ≠ ∅)
      then [st_warning "IDs in standings but not in league entries: "
              (missing_in_entries sdf edf)] else []) ++
     (if bool_decide (missing_in_standings sdf edf ≠ ∅)
      then [st_warning "IDs in league entries but not in standings: "
              (missing_in_standings sdf edf)] else []),
     Returned ()).
Proof.
  unfold report_mismatches.
  destruct (bool_decide (missing_in_entries sdf edf ≠ ∅));
    destruct (bool_decide (missing_in_standings sdf edf ≠ ∅)); reflexivity.
Qed.

(** C4. The two reported sets together are the symmetric difference of the
    two identifier sets; each warning is on the page exactly when its set
    is not empty; and the report never ends the pass: the reconciler runs
    the filtering and the merge after it in every case. *)
Theorem mismatch_report_symmetric_difference
    (str_to_num : string → option Z) (sdf edf : DataFrame) :
  missing_in_entries sdf edf ∪ missing_in_standings sdf edf
    = symmetric_difference (standings_ids sdf) (entries_ids edf)
  ∧ (st_warning "IDs in standings but not in league entries: "
       (missing_in_entries sdf edf) ∈ events (report_mismatches sdf edf)
     ↔ missing_in_entries sdf edf ≠ ∅)
  ∧ (st_warning "IDs in league entries but not in standings: "
       (missing_in_standings sdf edf) ∈ events (report_mismatches sdf edf)
     ↔ missing_in_standings sdf edf ≠ ∅)
  ∧ (∀ e, e ∈ events (report_mismatches sdf edf) →
       e = st_warning "IDs in standings but not in league entries: "
             (missing_in_entries sdf edf)
       ∨ e = st_warning "IDs in league entries but not in standings: "
             (missing_in_standings sdf edf))
  ∧ result (report_mismatches sdf edf) = Returned ()
  ∧ reconcile str_to_num sdf edf
    = ((events (report_mismatches sdf edf)
          ++ events (merge_and_present str_to_num sdf edf))%list,
       result (merge_and_present str_to_num sdf edf)).
Proof.
  split_and!.
  - unfold missing_in_entries, missing_in_standings, symmetric_difference.
    set_solver.
  - rewrite report_mismatches_events. unfold events; simpl.
    case_bool_decide as H1; case_bool_decide as H2; set_solver.
  - rewrite report_mismatches_events. unfold events; simpl.
    case_bool_decide as H1; case_bool_decide as H2; set_solver.
  - rewrite report_mismatches_events. unfold events; simpl.
    intros e. case_bool_decide; case_bool_decide; set_solver.
  - by rewrite report_mismatches_events.
  - unfold reconcile. rewrite report_mismatches_events at 1.
    rewrite bind_returned. by rewrite report_mismatches_events.
Qed.

(** ** Step 1: the key columns *)

Lemma setitem_astype_str_eq (df : DataFrame) c :
  setitem_astype_str df c =
    if decide (c ∈ columns df)
    then ([], Returned (assign c (astype_str (series df c)) df))
    else ([], Raised (KeyError c)).
Proof. unfold setitem_astype_str, getitem. by case_decide. Qed.

Lemma process_eq (str_to_num : string → option Z) (data : details) :
  process str_to_num data =
    if decide ("league_entry" ∈ columns (pd_DataFrame (standings data))) then
      if decide ("id" ∈ columns (pd_DataFrame (league_entries data))) then
        (raw_page data ++
           events (reconcile str_to_num (keyed_standings (standings data))
                     (keyed_entries (league_entries data))),
         result (reconcile str_to_num (keyed_standings (standings data))
                   (keyed_entries (league_entries data))))
      else (raw_page data, Raised (KeyError "id"))
    else (raw_page data, Raised (KeyError "league_entry")).
Proof.
  unfold process, setitem_astype_str, getitem, raw_page, events, result.
  unfold emit, mbind, ui_bind, mret, ui_ret.
  repeat case_decide; simpl; try done.
  by destruct (reconcile _ _ _).
Qed.

Lemma assign_rows (c : string) (f : cell → cell) (df : DataFrame) r :
  r ∈ rows (assign c f df) ↔ ∃ r0, r0 ∈ rows df ∧ r = <[c := f (cell_at r0 c)]> r0.
Proof.
  unfold assign; simpl. rewrite list_elem_of_fmap.
  split; intros (r0 & H1 & H2); exists r0; done.
Qed.

Lemma series_assign (c : string) (f : cell → cell) (df : DataFrame) :
  series (assign c f df) c = f <$> series df c.
Proof.
  unfold series, assign; simpl. rewrite <- !list_fmap_compose.
  apply list_fmap_ext. intros i r _. simpl. apply cell_at_insert_eq.
Qed.

Lemma keyed_standings_rows (records : list (gmap string cell)) r :
  r ∈ rows (keyed_standings records)
  ↔ ∃ r0, r0 ∈ records
      ∧ r = <["league_entry" := PyStr (standing_key records r0)]> r0.
Proof. unfold keyed_standings. by rewrite assign_rows. Qed.

Lemma keyed_entries_rows (records : list (gmap string cell)) r :
  r ∈ rows (keyed_entries records)
  ↔ ∃ r0, r0 ∈ records ∧ r = <["id" := PyStr (entry_key records r0)]> r0.
Proof. unfold keyed_entries. by rewrite assign_rows. Qed.

Lemma keyed_id_set (c : string) (records : list (gmap string cell)) k :
  k ∈ id_set (assign c (astype_str (series (pd_DataFrame records) c))
                (pd_DataFrame records)) c
  ↔ ∃ r0, r0 ∈ records
      ∧ k = PyStr (str_of (infer_dtype (series (pd_DataFrame records) c))
                     (cell_at r0 c)).
Proof.
  unfold id_set. rewrite series_assign, elem_of_list_to_set, list_elem_of_fmap.
  unfold series. setoid_rewrite list_elem_of_fmap. simpl. split.
  - intros (v & -> & r0 & -> & Hr0). by exists r0.
  - intros (r0 & Hr0 & ->). exists (cell_at r0 c). eauto.
Qed.

Lemma existsb_nan_null (s : list cell) :
  existsb is_null s = false → existsb is_nan s = false.
Proof.
  induction s as [|x s IH]; [done|]. simpl.
  intros [Hx Hs]%orb_false_iff. rewrite IH by done. by destruct x.
Qed.

(** In a column where no value is null or missing nothing is held as a
    float: the coercion is [str] of each value. *)
Lemma str_of_no_null (s : list cell) (c : cell) :
  existsb is_null s = false → str_of (infer_dtype s) c = py_str c.
Proof.
  intros Hnull. unfold infer_dtype.
  rewrite Hnull, (existsb_nan_null s Hnull).
  destruct (existsb is_str s); [done|]. by destruct (existsb is_int s).
Qed.

Lemma series_no_null (c : string) (records : list (gmap string cell)) :
  (∀ r0, r0 ∈ records → is_null (cell_at r0 c) = false) →
  existsb is_null (series (pd_DataFrame records) c) = false.
Proof.
  intros Hall. unfold series, pd_DataFrame; simpl.
  induction records as [|r0 l IH]; [done|]. simpl.
  rewrite (Hall r0) by left. simpl. apply IH. intros r Hr. apply Hall. by right.
Qed.

(** C7. In the frames that reach the set operations, the filters and the
    merge, every [league_entry] and every [id] is a string: what
    [astype(str)] makes of the value the record came with, in the dtype
    pandas gave the column, which is [str] of the value itself where the
    column has no null or missing value.  So is every member of the two
    identifier sets.  The script reaches the reconciler with these coerced
    frames only: when a key column is missing it stops with a [KeyError]
    at the coercion, with nothing but the raw frames on the page. *)
Theorem join_keys_are_strings (str_to_num : string → option Z) (data : details) :
  let sdf := keyed_standings (standings data) in
  let edf := keyed_entries (league_entries data) in
  (∀ r, r ∈ rows sdf → ∃ r0, r0 ∈ standings data
      ∧ r !! "league_entry" = Some (PyStr (standing_key (standings data) r0)))
  ∧ (∀ r, r ∈ rows edf → ∃ r0, r0 ∈ league_entries data
      ∧ r !! "id" = Some (PyStr (entry_key (league_entries data) r0)))
  ∧ (∀ k, k ∈ standings_ids sdf ↔
        ∃ r0, r0 ∈ standings data ∧ k = PyStr (standing_key (standings data) r0))
  ∧ (∀ k, k ∈ entries_ids edf ↔
        ∃ r0, r0 ∈ league_entries data
          ∧ k = PyStr (entry_key (league_entries data) r0))
  ∧ ((∀ r0, r0 ∈ standings data →
        is_null (cell_at r0 "league_entry") = false) →
     ∀ r0, standing_key (standings data) r0 = py_str (cell_at r0 "league_entry"))
  ∧ ((∀ r0, r0 ∈ league_entries data → is_null (cell_at r0 "id") = false) →
     ∀ r0, entry_key (league_entries data) r0 = py_str (cell_at r0 "id"))
  ∧ (process str_to_num data
       = (raw_page data ++ events (reconcile str_to_num sdf edf),
          result (reconcile str_to_num sdf edf))
     ∨ process str_to_num data = (raw_page data, Raised (KeyError "id"))
     ∨ process str_to_num data = (raw_page data, Raised (KeyError "league_entry"))).
Proof.
  intros sdf edf. split_and!.
  - intros r [r0 [Hr0 ->]]%keyed_standings_rows. exists r0. split; [done|].
    by rewrite lookup_insert_eq.
  - intros r [r0 [Hr0 ->]]%keyed_entries_rows. exists r0. split; [done|].
    by rewrite lookup_insert_eq.
  - intros k. apply keyed_id_set.
  - intros k. apply keyed_id_set.
  - intros Hall r0. apply str_of_no_null. by apply series_no_null.
  - intros Hall r0. apply str_of_no_null. by apply series_no_null.
  - rewrite process_eq. repeat case_decide; auto.
Qed.

(** An integer key column with a gap is coerced as a float column: the
    key 1 becomes ["1.0"], the gap ["nan"], and the standing is joined
    with the entry whose id is the string ["1.0"]. *)
Lemma gapped_league_keys :
  series (keyed_standings (standings gapped_league)) "league_entry"
    = [PyStr "1.0"; PyStr "nan"]
  ∧ series (reconciled int_literal gapped_league) "entry_name" = [PyStr "A"].
Proof. split; vm_compute; reflexivity. Qed.

(** ** Steps 3 and 4: filtering and the merge *)

Lemma elem_of_valid_standings (sdf edf : DataFrame) s :
  s ∈ rows (valid_standings_df sdf edf)
  ↔ s ∈ rows sdf ∧ cell_at s "league_entry" ∈ entries_ids edf.
Proof.
  unfold valid_standings_df, isin_filter; simpl.
  rewrite list_elem_of_filter. tauto.
Qed.

Lemma elem_of_valid_entries (sdf edf : DataFrame) e :
  e ∈ rows (valid_entries_df sdf edf)
  ↔ e ∈ rows edf ∧ cell_at e "id" ∈ standings_ids sdf.
Proof.
  unfold valid_entries_df, isin_filter; simpl.
  rewrite list_elem_of_filter. tauto.
Qed.

(** Every standing that survives the filter has an entry that survives it. *)
Lemma valid_standing_has_valid_entry (sdf edf : DataFrame) s :
  s ∈ rows (valid_standings_df sdf edf) →
  ∃ e, e ∈ rows (valid_entries_df sdf edf) ∧ cell_at e "id" = cell_at s "league_entry".
Proof.
  intros [Hs Hk]%elem_of_valid_standings.
  apply elem_of_id_set in Hk as (e & He & Hke).
  exists e. split; [|done].
  apply elem_of_valid_entries. split; [done|].
  rewrite Hke. apply elem_of_id_set. eauto.
Qed.

Lemma valid_entry_has_valid_standing (sdf edf : DataFrame) e :
  e ∈ rows (valid_entries_df sdf edf) →
  ∃ s, s ∈ rows (valid_standings_df sdf edf) ∧ cell_at s "league_entry" = cell_at e "id".
Proof.
  intros [He Hk]%elem_of_valid_entries.
  apply elem_of_id_set in Hk as (s & Hs & Hks).
  exists s. split; [|done].
  apply elem_of_valid_standings. split; [done|].
  rewrite Hks. apply elem_of_id_set. eauto.
Qed.

Lemma elem_of_partners_select (cs : list string) (df : DataFrame) on k e' :
  on ∈ cs →
  e' ∈ partners (select cs df) on k
  ↔ ∃ e, e ∈ rows df ∧ cell_at e on = k ∧ e' = filter (λ kv, kv.1 ∈ cs) e.
Proof.
  intros Hon. unfold partners, select; simpl.
  rewrite list_elem_of_filter, list_elem_of_fmap. split.
  - intros (Hk & e & -> & He). exists e. by rewrite cell_at_select in Hk.
  - intros (e & He & Hk & ->). rewrite cell_at_select by done. eauto.
Qed.

Lemma id_in_entry_columns : "id" ∈ entry_columns.
Proof. unfold entry_columns. set_solver. Qed.

Lemma valid_standing_has_partner (sdf edf : DataFrame) s :
  s ∈ rows (valid_standings_df sdf edf) →
  partners (select entry_columns (valid_entries_df sdf edf)) "id"
    (cell_at s "league_entry") ≠ [].
Proof.
  intros (e & He & Hk)%valid_standing_has_valid_entry Hnil.
  assert (filter (λ kv, kv.1 ∈ entry_columns) e ∈
          partners (select entry_columns (valid_entries_df sdf edf)) "id"
            (cell_at s "league_entry")) as Hin.
  { apply elem_of_partners_select; [apply id_in_entry_columns|]. eauto. }
  rewrite Hnil in Hin. by apply not_elem_of_nil in Hin.
Qed.

Lemma merged_df_rows_inner (sdf edf : DataFrame) :
  rows (merged_df sdf edf)
  = rows (merge_inner (valid_standings_df sdf edf)
            (select entry_columns (valid_entries_df sdf edf))
            "league_entry" "id").
Proof.
  unfold merged_df, merge_left, merge_inner; simpl.
  apply Forall_bind_ext, Forall_forall. intros s Hs.
  pose proof (valid_standing_has_partner sdf edf s Hs) as Hne.
  by destruct (partners _ _ _).
Qed.

Lemma filtered_rows_joined (sdf edf : DataFrame) (r : gmap string cell) :
  r ∈ rows (merged_df sdf edf) →
  ∃ s e, s ∈ rows (valid_standings_df sdf edf)
    ∧ e ∈ rows (valid_entries_df sdf edf)
    ∧ cell_at s "league_entry" = cell_at e "id"
    ∧ r = relabel (suffixed "_x"
                     (columns (valid_standings_df sdf edf)
                        ∩ list_to_set entry_columns)) s
          ∪ relabel (suffixed "_y"
                       (columns (valid_standings_df sdf edf)
                          ∩ list_to_set entry_columns))
              (filter (λ kv, kv.1 ∈ entry_columns) e).
Proof.
  rewrite merged_df_rows_inner. unfold merge_inner; simpl.
  intros (s & Hr & Hs)%list_elem_of_bind.
  apply list_elem_of_fmap in Hr as (e' & -> & He').
  apply elem_of_partners_select in He' as (e & He & Hk & ->);
    [|apply id_in_entry_columns].
  exists s, e. done.
Qed.

(** C2. After the filtering of Step 3 the left join of Step 4 is the inner
    join: every filtered standing has a partner among the filtered entries,
    the two filtered frames carry the same identifiers, and every row of
    the result is a standing joined with the five columns of an entry of
    equal key. *)
Theorem filtered_left_join_is_inner (sdf edf : DataFrame) :
  let valid_standings := valid_standings_df sdf edf in
  let valid_entries := valid_entries_df sdf edf in
  let overlap := columns valid_standings ∩ list_to_set entry_columns in
  merged_df sdf edf
    = merge_inner valid_standings (select entry_columns valid_entries)
        "league_entry" "id"
  ∧ standings_ids valid_standings = entries_ids valid_entries
  ∧ (∀ s, s ∈ rows valid_standings →
       partners (select entry_columns valid_entries) "id"
         (cell_at s "league_entry") ≠ [])
  ∧ (∀ r, r ∈ rows (merged_df sdf edf) →
       ∃ s e, s ∈ rows valid_standings ∧ e ∈ rows valid_entries
         ∧ cell_at s "league_entry" = cell_at e "id"
         ∧ r = relabel (suffixed "_x" overlap) s
               ∪ relabel (suffixed "_y" overlap)
                   (filter (λ kv, kv.1 ∈ entry_columns) e)).
Proof.
  intros valid_standings valid_entries overlap. split_and!.
  - pose proof (merged_df_rows_inner sdf edf) as Hrows.
    unfold merged_df, merge_left, merge_inner in *; simpl in *.
    by rewrite Hrows.
  - apply set_eq. intros k. unfold standings_ids, entries_ids.
    rewrite !elem_of_id_set. split.
    + intros (s & Hs & <-).
      destruct (valid_standing_has_valid_entry sdf edf s Hs) as (e & He & Hk).
      eauto.
    + intros (e & He & <-).
      destruct (valid_entry_has_valid_standing sdf edf e He) as (s & Hs & Hk).
      eauto.
  - intros s Hs. by apply valid_standing_has_partner.
  - apply filtered_rows_joined.
Qed.

(** ** Step 5: the numeric total *)

Lemma coerce_total_eq (str_to_num : string → option Z) (df : DataFrame) :
  coerce_total str_to_num df =
    if decide ("total" ∈ columns df)
    then ([], Returned (normalize_total str_to_num df))
    else ([], Raised (KeyError "total")).
Proof. unfold coerce_total, getitem. by case_decide. Qed.

Lemma normalize_total_rows (str_to_num : string → option Z) (df : DataFrame) r :
  r ∈ rows (normalize_total str_to_num df) ↔
  ∃ r0, r0 ∈ rows df
    ∧ r = <["total" := fillna 0 (to_numeric str_to_num (cell_at r0 "total"))]> r0.
Proof. unfold normalize_total. apply assign_rows. Qed.


(** ** The points leader *)

Lemma idxmax_from_spec (l : list Z) :
  ∀ (seen : list Z) (best_i : nat) (best : Z),
    seen !! best_i = Some best →
    (∀ y, y ∈ seen → y ≤ best) →
    (∀ j y, (j < best_i)%nat → seen !! j = Some y → y < best) →
    ∃ m, (seen ++ l) !! idxmax_from (length seen) best_i best l = Some m
      ∧ (∀ y, y ∈ seen ++ l → y ≤ m)
      ∧ (∀ j y, (j < idxmax_from (length seen) best_i best l)%nat →
           (seen ++ l) !! j = Some y → y < m).
Proof.
  induction l as [|x l IH]; intros seen best_i best Hbest Hmax Hfirst; simpl.
  - rewrite app_nil_r. eauto.
  - replace (seen ++ x :: l) with ((seen ++ [x]) ++ l)
      by (by rewrite <- app_assoc).
    replace (S (length seen)) with (length (seen ++ [x]))
      by (rewrite length_app; simpl; lia).
    case_decide as Hlt.
    + apply IH.
      * rewrite lookup_app_r by lia. by rewrite Nat.sub_diag.
      * intros y [Hy | ->%list_elem_of_singleton]%elem_of_app; [|lia].
        specialize (Hmax y Hy). lia.
      * intros j y Hj Hy. rewrite lookup_app_l in Hy by done.
        apply list_elem_of_lookup_2 in Hy. specialize (Hmax y Hy). lia.
    + apply IH.
      * rewrite lookup_app_l; [done|]. by eapply lookup_lt_Some.
      * intros y [Hy | ->%list_elem_of_singleton]%elem_of_app; [auto|lia].
      * intros j y Hj Hy.
        assert (j < length seen)%nat
          by (apply lookup_lt_Some in Hbest; lia).
        rewrite lookup_app_l in Hy by done. eauto.
Qed.

Lemma idxmax_spec (l : list Z) :
  l ≠ [] →
  ∃ i m, idxmax l = Some i ∧ l !! i = Some m
    ∧ (∀ y, y ∈ l → y ≤ m)
    ∧ (∀ j y, (j < i)%nat → l !! j = Some y → y < m).
Proof.
  destruct l as [|x l]; [done|]. intros _.
  destruct (idxmax_from_spec l [x] 0%nat x) as (m & Hm & Hmax & Hfirst).
  - done.
  - intros y ->%list_elem_of_singleton. lia.
  - intros j y Hj. lia.
  - exists (idxmax_from 1 0 x l), m. simpl in *. eauto.
Qed.

Lemma foldl_max_spec (l : list Z) (x : Z) :
  (foldl Z.max x l = x ∨ foldl Z.max x l ∈ l)
  ∧ x ≤ foldl Z.max x l
  ∧ (∀ y, y ∈ l → y ≤ foldl Z.max x l).
Proof.
  revert x. induction l as [|y l IH]; intros x; simpl.
  - split_and!; [by left|lia|]. intros y Hy. by apply not_elem_of_nil in Hy.
  - destruct (IH (Z.max x y)) as (Hin & Hle & Hall). split_and!.
    + destruct Hin as [Heq | Hin].
      * rewrite Heq. destruct (Z.max_spec x y) as [[_ ->] | [_ ->]];
          [right; left | by left].
      * right. by right.
    + lia.
    + intros z [-> | Hz]%elem_of_cons; [lia | auto].
Qed.

Lemma series_max_spec (l : list Z) (m : Z) :
  series_max l = Some m ↔ m ∈ l ∧ ∀ y, y ∈ l → y ≤ m.
Proof.
  destruct l as [|x l]; simpl.
  - split; [done|]. intros [H _]. by apply not_elem_of_nil in H.
  - destruct (foldl_max_spec l x) as (Hin & Hle & Hall). split.
    + intros [= <-]. split.
      * destruct Hin as [-> | Hin]; [left | by right].
      * intros y [-> | Hy]%elem_of_cons; auto.
    + intros [Hm Hmax]. f_equal. apply Z.le_antisymm.
      * destruct Hin as [-> | Hin]; apply Hmax; [left | by right].
      * apply elem_of_cons in Hm as [-> | Hm]; auto.
Qed.

Lemma numeric_series_lookup (df : DataFrame) c i :
  numeric_series df c !! i = (λ r, num (cell_at r c)) <$> rows df !! i.
Proof.
  unfold numeric_series, series. rewrite !list_lookup_fmap.
  by destruct (rows df !! i).
Qed.

Lemma elem_of_numeric_series (df : DataFrame) c z :
  z ∈ numeric_series df c ↔ ∃ r, r ∈ rows df ∧ z = num (cell_at r c).
Proof.
  unfold numeric_series, series. rewrite <- list_fmap_compose.
  rewrite list_elem_of_fmap.
  split; intros (r & H1 & H2); exists r; done.
Qed.

(** C9. On a table with at least one row, the leader is a row of the
    table whose [total] is the maximum of the column, and every row before
    it has a strictly smaller [total]: among rows level on the maximum the
    first one is taken. *)
Theorem leader_is_first_maximum (df : DataFrame) :
  rows df ≠ [] →
  ∃ i r, top_scorer df = Some r
    ∧ rows df !! i = Some r
    ∧ series_max (numeric_series df "total") = Some (num (cell_at r "total"))
    ∧ (∀ r', r' ∈ rows df → num (cell_at r' "total") ≤ num (cell_at r "total"))
    ∧ (∀ j r', (j < i)%nat → rows df !! j = Some r' →
         num (cell_at r' "total") < num (cell_at r "total")).
Proof.
  intros Hrows.
  destruct (idxmax_spec (numeric_series df "total")) as (i & m & Hi & Hm & Hmax & Hfirst).
  { unfold numeric_series, series. destruct (rows df); [done|]. done. }
  rewrite numeric_series_lookup in Hm.
  destruct (rows df !! i) as [r|] eqn:Hr; [|done].
  injection Hm as <-.
  exists i, r. split_and!.
  - unfold top_scorer. rewrite Hi. simpl. done.
  - done.
  - apply series_max_spec. split; [|done].
    apply elem_of_numeric_series. exists r. split; [|done].
    by eapply list_elem_of_lookup_2.
  - intros r' Hr'. apply Hmax, elem_of_numeric_series. eauto.
  - intros j r' Hj Hr'. apply (Hfirst j); [done|].
    rewrite numeric_series_lookup, Hr'. done.
Qed.

Lemma top_scorer_total (df : DataFrame) (m : Z) :
  series_max (numeric_series df "total") = Some m →
  ∃ r, top_scorer df = Some r ∧ num (cell_at r "total") = m.
Proof.
  intros Hmax.
  destruct (idxmax_spec (numeric_series df "total"))
    as (i & m' & Hi & Hm' & Hle & _).
  { intros Hnil. by rewrite Hnil in Hmax. }
  assert (m' = m) as ->.
  { apply series_max_spec in Hmax as [Hin Hall].
    apply Z.le_antisymm; [apply Hall | apply Hle; done].
    by eapply list_elem_of_lookup_2. }
  rewrite numeric_series_lookup in Hm'.
  destruct (rows df !! i) as [r|] eqn:Hr; [|done].
  injection Hm' as Hm'. exists r. split; [|done].
  unfold top_scorer. rewrite Hi. done.
Qed.

Lemma highlight_top_scorer_eq (df : DataFrame) :
  "total" ∈ columns df →
  highlight_top_scorer df =
    match series_max (numeric_series df "total") with
    | Some m =>
        if decide (m > 0) then
          match top_scorer df with
          | Some r =>
              if decide ("player_first_name" ∈ columns df) then
                if decide ("player_last_name" ∈ columns df) then
                  ([st_write "## Points Leader";
                    st_metric "Top Scorer" (num (cell_at r "total"));
                    st_write ("Player: " +:+ py_str (cell_at r "player_first_name")
                               +:+ " " +:+ py_str (cell_at r "player_last_name"))],
                   Returned ())
                else
                  ([st_write "## Points Leader";
                    st_metric "Top Scorer" (num (cell_at r "total"))],
                   Raised (KeyError "player_last_name"))
              else
                ([st_write "## Points Leader";
                  st_metric "Top Scorer" (num (cell_at r "total"))],
                 Raised (KeyError "player_first_name"))
          | None => ([], Raised (ValueError "idxmax"))
          end
        else
          ([st_write "No valid data available to determine the top scorer."],
           Returned ())
    | None =>
        ([st_write "No valid data available to determine the top scorer."],
         Returned ())
    end.
Proof.
  intros Htotal. unfold highlight_top_scorer.
  destruct (df_empty df) eqn:Hempty.
  - apply bool_decide_eq_true in Hempty as [Hrows | Hcols]; [|set_solver].
    unfold numeric_series, series. by rewrite Hrows.
  - unfold getitem, row_getitem. rewrite decide_True by done.
    unfold numeric_series, emit, raise, mbind, ui_bind, mret, ui_ret. simpl.
    destruct (series_max _) as [m|]; [|done].
    case_decide; [|done].
    destruct (top_scorer df) as [r|]; [|done].
    repeat case_decide; done.
Qed.

(** C10. The metric is on the page only when the table has rows and the
    maximum of [total] is strictly positive, and then it shows that
    maximum; on a table whose totals are all at most 0 the step writes the
    no-data message and nothing else; and when the maximum is positive the
    leader is picked and shown. *)
Theorem points_leader_guard (df : DataFrame) :
  (∀ label v, st_metric label v ∈ events (highlight_top_scorer df) →
     rows df ≠ []
     ∧ series_max (numeric_series df "total") = Some v ∧ 0 < v)
  ∧ ("total" ∈ columns df →
     (∀ r, r ∈ rows df → num (cell_at r "total") ≤ 0) →
     highlight_top_scorer df
       = ([st_write "No valid data available to determine the top scorer."],
          Returned ()))
  ∧ ("total" ∈ columns df → "player_first_name" ∈ columns df →
     "player_last_name" ∈ columns df →
     ∀ m, series_max (numeric_series df "total") = Some m → 0 < m →
     ∃ r, top_scorer df = Some r
       ∧ highlight_top_scorer df
         = ([st_write "## Points Leader"; st_metric "Top Scorer" m;
             st_write ("Player: " +:+ py_str (cell_at r "player_first_name")
                        +:+ " " +:+ py_str (cell_at r "player_last_name"))],
            Returned ())).
Proof.
  split_and!.
  - intros label v.
    destruct (decide ("total" ∈ columns df)) as [Htotal | Htotal].
    + rewrite highlight_top_scorer_eq by done.
      destruct (series_max _) as [m|] eqn:Hmax;
        [|unfold events; simpl; set_solver].
      assert (rows df ≠ []) as Hrows.
      { intros Hnil. unfold numeric_series, series in Hmax.
        by rewrite Hnil in Hmax. }
      case_decide as Hpos; [|unfold events; simpl; set_solver].
      destruct (top_scorer_total df m Hmax) as (r & -> & Hr).
      rewrite Hr.
      repeat case_decide; unfold events; simpl; intros Hin;
        (assert (v = m) as -> by set_solver); split_and!; (done || lia).
    + unfold highlight_top_scorer, getitem. rewrite decide_False by done.
      destruct (df_empty df); unfold events; simpl; set_solver.
  - intros Htotal Hall. rewrite highlight_top_scorer_eq by done.
    destruct (series_max _) as [m|] eqn:Hmax; [|done].
    apply series_max_spec in Hmax as [(r & Hr & ->)%elem_of_numeric_series _].
    specialize (Hall r Hr). rewrite decide_False by lia. done.
  - intros Htotal Hfirst Hlast m Hmax Hpos.
    destruct (top_scorer_total df m Hmax) as (r & Htop & Hr).
    exists r. split; [done|].
    rewrite highlight_top_scorer_eq by done.
    rewrite Hmax, Htop, Hr, !decide_True by (done || lia). done.
Qed.

(** ** The scenario *)

(** C1. On the two entries ["1"], ["2"] and the two standings ["1"] (total
    ["50"]), ["3"] (total ["30"]) the reconciler finds ["3"] missing from
    the entries and ["2"] missing from the standings, and its output has
    exactly one row: standing ["1"] joined with entry ["1"], its total the
    number 50.  The page carries the two warnings and that one-row table. *)
Theorem scenario_reconciliation :
  missing_in_entries (keyed_standings scenario_standings)
      (keyed_entries scenario_entries) = {[PyStr "3"]}
  ∧ missing_in_standings (keyed_standings scenario_standings)
      (keyed_entries scenario_entries) = {[PyStr "2"]}
  ∧ rows (reconciled int_literal scenario) = [scenario_row]
  ∧ cell_at scenario_row "league_entry" = PyStr "1"
  ∧ cell_at scenario_row "id" = PyStr "1"
  ∧ cell_at scenario_row "entry_name" = PyStr "A"
  ∧ cell_at scenario_row "total" = PyInt 50
  ∧ st_warning "IDs in standings but not in league entries: " {[PyStr "3"]}
      ∈ events (process int_literal scenario)
  ∧ st_warning "IDs in league entries but not in standings: " {[PyStr "2"]}
      ∈ events (process int_literal scenario)
  ∧ st_dataframe (select league_standings (reconciled int_literal scenario))
      ∈ events (process int_literal scenario).
Proof.
  split_and!.
  - vm_compute. reflexivity.
  - vm_compute. reflexivity.
  - vm_compute. reflexivity.
  - vm_compute. reflexivity.
  - vm_compute. reflexivity.
  - vm_compute. reflexivity.
  - vm_compute. reflexivity.
  - apply list_elem_of_lookup_2 with 5%nat. vm_compute. reflexivity.
  - apply list_elem_of_lookup_2 with 6%nat. vm_compute. reflexivity.
  - apply list_elem_of_lookup_2 with 10%nat. vm_compute. reflexivity.
Qed.

(** ** Empty inputs and empty results *)

Lemma valid_entries_nil_of_valid_standings_nil (sdf edf : DataFrame) :
  rows (valid_standings_df sdf edf) = [] → rows (valid_entries_df sdf edf) = [].
Proof.
  intros Hnil. destruct (rows (valid_entries_df sdf edf)) as [|e l] eqn:He; [done|].
  destruct (valid_entry_has_valid_standing sdf edf e) as (s & Hs & _).
  { rewrite He. left. }
  rewrite Hnil in Hs. by apply not_elem_of_nil in Hs.
Qed.

(** When no identifier is common to the two frames, both filtered frames
    are empty, both errors are on the page and nothing is merged. *)
Lemma empty_filter_is_reported (str_to_num : string → option Z) (sdf edf : DataFrame) :
  rows (valid_standings_df sdf edf) = [] →
  merge_and_present str_to_num sdf edf
    = ([st_error "No valid standings data available after filtering.";
        st_error "No valid league entries data available after filtering."],
       Returned ()).
Proof.
  intros Hs. pose proof (valid_entries_nil_of_valid_standings_nil _ _ Hs) as He.
  unfold merge_and_present.
  assert (df_empty (valid_standings_df sdf edf) = true) as ->.
  { apply bool_decide_eq_true. by left. }
  assert (df_empty (valid_entries_df sdf edf) = true) as ->.
  { apply bool_decide_eq_true. by left. }
  reflexivity.
Qed.

(** C5. With an empty standings array the pass does not reach the
    emptiness checks: the frame built from it has no column, so the
    coercion of [league_entry] raises [KeyError] with only the raw frames
    on the page, and no error element is among them. *)
Theorem empty_standings_key_error
    (str_to_num : string → option Z) (name : cell)
    (entries : list (gmap string cell)) :
  process str_to_num (mkDetails name entries [])
    = (raw_page (mkDetails name entries []), Raised (KeyError "league_entry"))
  ∧ (∀ msg, st_error msg ∉ events (process str_to_num (mkDetails name entries []))).
Proof.
  assert (process str_to_num (mkDetails name entries [])
    = (raw_page (mkDetails name entries []), Raised (KeyError "league_entry")))
    as Heq.
  { rewrite process_eq. simpl. rewrite decide_False; [done|].
    unfold pd_DataFrame; simpl. set_solver. }
  split; [done|]. intros msg. rewrite Heq. unfold events, raw_page; simpl.
  set_solver.
Qed.

(** ** The fetcher *)

(** C6. On a pass that issues the GET: a status other than 200 makes
    [fetch_data] put the failure message on the page and return no data,
    and the pass then only writes the prompt for a valid id, the branch
    that processes a document is not entered; a status of 200 makes it
    return the parsed body, which the pass goes on to process. *)
Theorem fetch_failure_stops_the_pass
    (str_to_num : string → option Z) (requests_get : string → response)
    (c : cache) (league_id : string) :
  c !! league_id = None →
  (status_code (requests_get (details_url league_id)) ≠ 200 →
     fetch_data requests_get league_id
       = ([st_error "Failed to fetch data. Please check the League ID."],
          Returned None)
     ∧ (app str_to_num requests_get c league_id).2
       = ([st_title "Premier League Fantasy Football Dashboard";
           st_write "Welcome to the Premier League Fantasy Football Dashboard!";
           st_error "Failed to fetch data. Please check the League ID.";
           st_write "Enter a valid League ID to see the standings."],
          Returned ()))
  ∧ (status_code (requests_get (details_url league_id)) = 200 →
     fetch_data requests_get league_id
       = ([], Returned (Some (json (requests_get (details_url league_id)))))
     ∧ (app str_to_num requests_get c league_id).2
       = (st_title "Premier League Fantasy Football Dashboard"
          :: st_write "Welcome to the Premier League Fantasy Football Dashboard!"
          :: events (process str_to_num (json (requests_get (details_url league_id)))),
          result (process str_to_num (json (requests_get (details_url league_id)))))).
Proof.
  intros Hmiss. split; intros Hstatus.
  - assert (fetch_data requests_get league_id
      = ([st_error "Failed to fetch data. Please check the League ID."],
         Returned None)) as Hfetch.
    { unfold fetch_data. by rewrite decide_False. }
    split; [done|].
    unfold app, cached_fetch_data. rewrite Hmiss, Hfetch. reflexivity.
  - assert (fetch_data requests_get league_id
      = ([], Returned (Some (json (requests_get (details_url league_id))))))
      as Hfetch.
    { unfold fetch_data. by rewrite decide_True. }
    split; [done|].
    unfold app, cached_fetch_data. rewrite Hmiss, Hfetch.
    unfold emit, mbind, ui_bind, events, result. simpl.
    by destruct (process _ _).
Qed.

Lemma fetch_failure_witness :
  fetch_data not_found "148968"
    = ([st_error "Failed to fetch data. Please check the League ID."],
       Returned None)
  ∧ (app int_literal not_found ∅ "148968").2
    = ([st_title "Premier League Fantasy Football Dashboard";
        st_write "Welcome to the Premier League Fantasy Football Dashboard!";
        st_error "Failed to fetch data. Please check the League ID.";
        st_write "Enter a valid League ID to see the standings."],
       Returned ()).
Proof.
  apply (fetch_failure_stops_the_pass int_literal not_found ∅ "148968").
  - reflexivity.
  - simpl. lia.
Defined.

(** ** The rows of the output *)

Lemma relabel_id (f : string → string) (r : gmap string cell) :
  (∀ c, f c = c) → relabel f r = r.
Proof.
  intros Hf. unfold relabel, kmap.
  rewrite <- (list_to_map_to_list r) at 2. f_equal.
  rewrite <- (list_fmap_id (map_to_list r)) at 2.
  apply list_fmap_ext. intros i [k v] _. simpl. by rewrite Hf.
Qed.

Lemma suffixed_empty sfx c : suffixed sfx ∅ c = c.
Proof. unfold suffixed. by rewrite decide_False by set_solver. Qed.

Lemma pd_DataFrame_dom (records : list (gmap string cell)) r c :
  r ∈ records → is_Some (r !! c) → c ∈ columns (pd_DataFrame records).
Proof.
  intros Hr Hc. unfold pd_DataFrame; simpl.
  apply elem_of_union_list. exists (dom r). split.
  - apply list_elem_of_fmap. eauto.
  - by apply elem_of_dom.
Qed.




Lemma leader_witness :
  ∃ i r, top_scorer (reconciled int_literal h2h_league) = Some r
    ∧ rows (reconciled int_literal h2h_league) !! i = Some r
    ∧ series_max (numeric_series (reconciled int_literal h2h_league) "total")
      = Some (num (cell_at r "total"))
    ∧ (∀ r', r' ∈ rows (reconciled int_literal h2h_league) →
         num (cell_at r' "total") ≤ num (cell_at r "total"))
    ∧ (∀ j r', (j < i)%nat →
         rows (reconciled int_literal h2h_league) !! j = Some r' →
         num (cell_at r' "total") < num (cell_at r "total")).
Proof.
  apply (leader_is_first_maximum (reconciled int_literal h2h_league)).
  intros Hnil. apply (f_equal length) in Hnil. vm_compute in Hnil. lia.
Defined.

(** * Further properties of the script *)

(** ** The cache of [fetch_data] *)

Lemma fetch_data_returns (requests_get : string → response) (league_id : string) :
  ∃ evs v, fetch_data requests_get league_id = (evs, Returned v).
Proof. unfold fetch_data. case_decide; eauto. Qed.

Lemma cached_fetch_data_hit (requests_get : string → response)
    (c : cache) (league_id : string) evs v :
  c !! league_id = Some (evs, v) →
  cached_fetch_data requests_get c league_id = (c, (evs, Returned v)).
Proof. intros Hc. unfold cached_fetch_data. by rewrite Hc. Qed.

Lemma cached_fetch_data_miss (requests_get : string → response)
    (c : cache) (league_id : string) :
  c !! league_id = None →
  ∃ evs v, fetch_data requests_get league_id = (evs, Returned v)
    ∧ cached_fetch_data requests_get c league_id
      = (<[league_id := (evs, v)]> c, (evs, Returned v)).
Proof.
  intros Hc. destruct (fetch_data_returns requests_get league_id) as (evs & v & Hf).
  exists evs, v. split; [done|]. unfold cached_fetch_data. by rewrite Hc, Hf.
Qed.

(** The page of a pass, from what the fetch put on it and returned. *)
Lemma app_eq (str_to_num : string → option Z) (requests_get : string → response)
    (c : cache) (league_id : string) :
  app str_to_num requests_get c league_id
  = ((cached_fetch_data requests_get c league_id).1,
     emit (st_title "Premier League Fantasy Football Dashboard");;
     emit (st_write "Welcome to the Premier League Fantasy Football Dashboard!");;
     data ← (cached_fetch_data requests_get c league_id).2;
     match data with
     | Some data => process str_to_num data
     | None => emit (st_write "Enter a valid League ID to see the standings.")
     end).
Proof. unfold app. by destruct (cached_fetch_data _ _ _). Qed.

(** X1. After a pass for a league id the outcome of its fetch is in the
    cache and nothing that was cached is lost; a later pass for the same
    id, whatever the endpoint would answer by then, leaves the cache as it
    is and renders the same page. *)
Theorem cached_pass_is_replayed
    (str_to_num : string → option Z) (requests_get requests_get' : string → response)
    (c : cache) (league_id : string) :
  is_Some ((app str_to_num requests_get c league_id).1 !! league_id)
  ∧ c ⊆ (app str_to_num requests_get c league_id).1
  ∧ app str_to_num requests_get' (app str_to_num requests_get c league_id).1 league_id
    = app str_to_num requests_get c league_id.
Proof.
  rewrite !app_eq. cbn [fst snd].
  destruct (c !! league_id) as [[evs v]|] eqn:Hc.
  - rewrite !(cached_fetch_data_hit _ _ _ _ _ Hc). cbn [fst snd].
    by rewrite Hc.
  - destruct (cached_fetch_data_miss requests_get c league_id Hc)
      as (evs & v & _ & ->).
    cbn [fst snd]. split_and!.
    + exists (evs, v). apply lookup_insert_eq.
    + by apply insert_subseteq.
    + by rewrite (cached_fetch_data_hit _ _ _ evs v) by apply lookup_insert_eq.
Qed.

(** X2. A fetch that failed is remembered: after a pass whose GET was
    answered with a status other than 200, a later pass for the same id
    shows the failure message and the prompt again, also when the
    endpoint would now serve the league. *)
Theorem failed_fetch_is_replayed
    (str_to_num : string → option Z) (requests_get requests_get' : string → response)
    (c : cache) (league_id : string) :
  c !! league_id = None →
  status_code (requests_get (details_url league_id)) ≠ 200 →
  (app str_to_num requests_get'
     (app str_to_num requests_get c league_id).1 league_id).2
  = ([st_title "Premier League Fantasy Football Dashboard";
      st_write "Welcome to the Premier League Fantasy Football Dashboard!";
      st_error "Failed to fetch data. Please check the League ID.";
      st_write "Enter a valid League ID to see the standings."],
     Returned ()).
Proof.
  intros Hc Hstatus. rewrite !app_eq. cbn [fst snd].
  destruct (cached_fetch_data_miss requests_get c league_id Hc)
    as (evs & v & Hf & ->).
  unfold fetch_data in Hf. rewrite decide_False in Hf by done.
  injection Hf as <- <-. cbn [fst snd].
  rewrite (cached_fetch_data_hit _ _ _
    [st_error "Failed to fetch data. Please check the League ID."] None)
    by apply lookup_insert_eq.
  reflexivity.
Qed.

Lemma failed_fetch_witness :
  (app int_literal serves_h2h
     (app int_literal unavailable ∅ "148968").1 "148968").2
  = ([st_title "Premier League Fantasy Football Dashboard";
      st_write "Welcome to the Premier League Fantasy Football Dashboard!";
      st_error "Failed to fetch data. Please check the League ID.";
      st_write "Enter a valid League ID to see the standings."],
     Returned ()).
Proof.
  apply (failed_fetch_is_replayed int_literal unavailable serves_h2h ∅ "148968").
  - reflexivity.
  - simpl. lia.
Defined.

(** ** More on the page monad *)

Lemma ret_bind {A B} (a : A) (k : A → ui B) : ([], Returned a) ≫= k = k a.
Proof. rewrite bind_returned. unfold events, result. by destruct (k a). Qed.

Lemma emit_prepend {B} (e : st_event) (k : unit → ui B) :
  emit e ≫= k = prepend [e] (k ()).
Proof. by rewrite emit_bind. Qed.

Lemma prepend_prepend {A} (evs evs' : list st_event) (m : ui A) :
  prepend evs (prepend evs' m) = prepend (evs ++ evs') m.
Proof. unfold prepend, events, result; simpl. by rewrite app_assoc. Qed.

Lemma prepend_eq {A} (evs : list st_event) (m : ui A) :
  prepend evs m = (evs ++ events m, result m).
Proof. done. Qed.

Lemma no_st_error_bind {A B} (m : ui A) (k : A → ui B) :
  no_st_error m → (∀ a, no_st_error (k a)) → no_st_error (m ≫= k).
Proof.
  intros Hm Hk msg. destruct m as [evs [a|e]].
  - rewrite bind_returned. unfold events at 1; simpl.
    rewrite elem_of_app. intros [Hin | Hin]; [by apply (Hm msg) | by apply (Hk a msg)].
  - rewrite bind_raised. apply Hm.
Qed.

Lemma no_st_error_emit (e : st_event) :
  (∀ msg, e ≠ st_error msg) → no_st_error (emit e).
Proof.
  intros He msg. unfold emit, events; simpl.
  intros Heq%list_elem_of_singleton. by apply (He msg).
Qed.

Lemma no_st_error_nil {A} (o : outcome A) : no_st_error ([], o).
Proof. intros msg. unfold events; simpl. apply not_elem_of_nil. Qed.

(** ** Reading columns *)

Lemma filter_all {A} (P : A → Prop) `{!∀ x, Decision (P x)} (l : list A) :
  (∀ x, x ∈ l → P x) → filter P l = l.
Proof.
  induction l as [|x l IH]; intros Hall; [done|].
  rewrite filter_cons_True by (apply Hall; left).
  f_equal. apply IH. intros y Hy. apply Hall. by right.
Qed.

Lemma filter_none {A} (P : A → Prop) `{!∀ x, Decision (P x)} (l : list A) :
  (∀ x, x ∈ l → ¬ P x) → filter P l = [].
Proof.
  induction l as [|x l IH]; intros Hall; [done|].
  rewrite filter_cons_False by (apply Hall; left).
  apply IH. intros y Hy. apply Hall. by right.
Qed.

Lemma getitems_ok (df : DataFrame) (cs : list string) :
  (∀ c, c ∈ cs → c ∈ columns df) →
  getitems df cs = ([], Returned (select cs df)).
Proof.
  intros Hcs. unfold getitems. rewrite filter_none; [done|].
  intros c Hc Hn. by apply Hn, Hcs.
Qed.


Lemma no_st_error_getitems (df : DataFrame) (cs : list string) :
  no_st_error (getitems df cs).
Proof. unfold getitems. destruct (filter _ cs); apply no_st_error_nil. Qed.

Lemma altair_chart_ok (title : string) (fields : list string) (df : DataFrame) :
  (∀ c, c ∈ fields → c ∈ columns df) →
  altair_chart title fields df = emit (st_altair_chart title df).
Proof.
  intros Hcs. unfold altair_chart. rewrite filter_none; [done|].
  intros c Hc Hn. by apply Hn, Hcs.
Qed.

Lemma no_st_error_altair_chart (title : string) (fields : list string) (df : DataFrame) :
  no_st_error (altair_chart title fields df).
Proof.
  unfold altair_chart. destruct (filter _ fields).
  - by apply no_st_error_emit.
  - apply no_st_error_nil.
Qed.

Lemma no_st_error_getitem (df : DataFrame) (c : string) : no_st_error (getitem df c).
Proof. unfold getitem. case_decide; apply no_st_error_nil. Qed.

Lemma no_st_error_row_getitem (df : DataFrame) r (c : string) :
  no_st_error (row_getitem df r c).
Proof. unfold row_getitem. case_decide; apply no_st_error_nil. Qed.

Lemma no_st_error_coerce_total (str_to_num : string → option Z) (df : DataFrame) :
  no_st_error (coerce_total str_to_num df).
Proof. rewrite coerce_total_eq. case_decide; apply no_st_error_nil. Qed.

Ltac no_st_error :=
  repeat first
    [ apply no_st_error_emit; done
    | apply no_st_error_nil
    | apply no_st_error_getitem
    | apply no_st_error_row_getitem
    | apply no_st_error_getitems
    | apply no_st_error_altair_chart
    | apply no_st_error_coerce_total
    | apply no_st_error_bind; [|intros ?] ].

Lemma no_st_error_highlight_top_scorer (df : DataFrame) :
  no_st_error (highlight_top_scorer df).
Proof.
  unfold highlight_top_scorer.
  destruct (df_empty df); [no_st_error|].
  apply no_st_error_bind; [no_st_error|]. intros total.
  destruct (series_max _) as [m|]; [|no_st_error].
  case_decide; [|no_st_error].
  destruct (top_scorer df) as [r|]; no_st_error.
Qed.

Lemma no_st_error_present (str_to_num : string → option Z) (df : DataFrame) :
  no_st_error (present str_to_num df).
Proof.
  unfold present. no_st_error. apply no_st_error_highlight_top_scorer.
Qed.

(** ** Key columns *)

Lemma in_columns_pd_DataFrame (records : list (gmap string cell)) (c : string) :
  c ∈ columns (pd_DataFrame records) ↔ ∃ r, r ∈ records ∧ is_Some (r !! c).
Proof.
  unfold pd_DataFrame; simpl. rewrite elem_of_union_list. split.
  - intros (X & (r & -> & Hr)%list_elem_of_fmap & Hc). exists r.
    split; [done|]. by apply elem_of_dom.
  - intros (r & Hr & Hc). exists (dom r). split.
    + apply list_elem_of_fmap. eauto.
    + by apply elem_of_dom.
Qed.

(** X3. When some standing carries a [league_entry] but no entry carries
    an [id] (so also when the entries array is empty), the pass ends with
    a [KeyError] for [id] at line 46, with the league name and the two raw
    frames on the page and nothing else. *)
Theorem empty_entries_key_error
    (str_to_num : string → option Z) (data : details) :
  (∃ s, s ∈ standings data ∧ is_Some (s !! "league_entry")) →
  (∀ e, e ∈ league_entries data → e !! "id" = None) →
  process str_to_num data = (raw_page data, Raised (KeyError "id")).
Proof.
  intros Hs He. rewrite process_eq.
  rewrite decide_True by (by apply in_columns_pd_DataFrame).
  rewrite decide_False; [done|].
  intros (e & Hin & Hid)%in_columns_pd_DataFrame.
  rewrite (He e Hin) in Hid. by destruct Hid.
Qed.

Lemma empty_entries_witness :
  process int_literal abandoned_league
    = (raw_page abandoned_league, Raised (KeyError "id")).
Proof.
  apply (empty_entries_key_error int_literal abandoned_league).
  - exists (rec [("league_entry", PyStr "1"); ("total", PyStr "50")]).
    split.
    + apply list_elem_of_lookup_2 with 0%nat. reflexivity.
    + exists (PyStr "1"). vm_compute. reflexivity.
  - intros e He. by apply not_elem_of_nil in He.
Defined.

(** ** What the filters drop *)

(** X4. A standing is dropped by the filter exactly when its key is in the
    set the first warning shows, an entry exactly when its key is in the
    set the second warning shows; so when a warning is not shown, the
    frame it is about passes the filter unchanged. *)
Theorem dropped_records_are_warned (sdf edf : DataFrame) :
  (∀ s, s ∈ rows sdf →
     (s ∉ rows (valid_standings_df sdf edf)
      ↔ cell_at s "league_entry" ∈ missing_in_entries sdf edf))
  ∧ (∀ e, e ∈ rows edf →
       (e ∉ rows (valid_entries_df sdf edf)
        ↔ cell_at e "id" ∈ missing_in_standings sdf edf))
  ∧ (missing_in_entries sdf edf = ∅ → valid_standings_df sdf edf = sdf)
  ∧ (missing_in_standings sdf edf = ∅ → valid_entries_df sdf edf = edf).
Proof.
  assert (∀ s, s ∈ rows sdf → cell_at s "league_entry" ∈ standings_ids sdf) as Hs.
  { intros s Hin. apply elem_of_id_set. eauto. }
  assert (∀ e, e ∈ rows edf → cell_at e "id" ∈ entries_ids edf) as He.
  { intros e Hin. apply elem_of_id_set. eauto. }
  split_and!.
  - intros s Hin. rewrite elem_of_valid_standings.
    unfold missing_in_entries. rewrite elem_of_difference.
    specialize (Hs s Hin). tauto.
  - intros e Hin. rewrite elem_of_valid_entries.
    unfold missing_in_standings. rewrite elem_of_difference.
    specialize (He e Hin). tauto.
  - intros Hempty. unfold valid_standings_df, isin_filter.
    destruct sdf as [cols rs]; simpl in *. f_equal.
    apply filter_all. intros s Hin. specialize (Hs s Hin).
    unfold missing_in_entries in Hempty.
    destruct (decide (cell_at s "league_entry" ∈ entries_ids edf)); [done|].
    set_solver.
  - intros Hempty. unfold valid_entries_df, isin_filter.
    destruct edf as [cols rs]; simpl in *. f_equal.
    apply filter_all. intros e Hin. specialize (He e Hin).
    unfold missing_in_standings in Hempty.
    destruct (decide (cell_at e "id" ∈ standings_ids sdf)); [done|].
    set_solver.
Qed.

Lemma disjoint_ids_valid_standings_nil (sdf edf : DataFrame) :
  standings_ids sdf ## entries_ids edf → rows (valid_standings_df sdf edf) = [].
Proof.
  intros Hdisj. unfold valid_standings_df, isin_filter; simpl.
  apply filter_none. intros s Hs Hin.
  apply (Hdisj (cell_at s "league_entry")); [|done].
  apply elem_of_id_set. eauto.
Qed.

(** X5. When the two frames have no identifier in common, every
    identifier of either frame is in the set its warning shows, both
    filter errors are put on the page, nothing is merged and the pass ends
    normally. *)
Theorem disjoint_ids_report_both_errors
    (str_to_num : string → option Z) (sdf edf : DataFrame) :
  standings_ids sdf ## entries_ids edf →
  missing_in_entries sdf edf = standings_ids sdf
  ∧ missing_in_standings sdf edf = entries_ids edf
  ∧ merge_and_present str_to_num sdf edf
    = ([st_error "No valid standings data available after filtering.";
        st_error "No valid league entries data available after filtering."],
       Returned ()).
Proof.
  intros Hdisj. split_and!.
  - unfold missing_in_entries. set_solver.
  - unfold missing_in_standings. set_solver.
  - apply empty_filter_is_reported. by apply disjoint_ids_valid_standings_nil.
Qed.

Lemma disjoint_ids_witness :
  missing_in_entries (keyed_standings (standings stale_league))
      (keyed_entries (league_entries stale_league))
    = standings_ids (keyed_standings (standings stale_league))
  ∧ missing_in_standings (keyed_standings (standings stale_league))
      (keyed_entries (league_entries stale_league))
    = entries_ids (keyed_entries (league_entries stale_league))
  ∧ merge_and_present int_literal (keyed_standings (standings stale_league))
      (keyed_entries (league_entries stale_league))
    = ([st_error "No valid standings data available after filtering.";
        st_error "No valid league entries data available after filtering."],
       Returned ()).
Proof.
  apply (disjoint_ids_report_both_errors int_literal
           (keyed_standings (standings stale_league))
           (keyed_entries (league_entries stale_league))).
  apply (bool_decide_unpack _). vm_compute. exact I.
Defined.

(** ** The merged frame is never empty *)

Lemma df_empty_false (df : DataFrame) :
  df_empty df = false ↔ rows df ≠ [] ∧ columns df ≠ ∅.
Proof. unfold df_empty. rewrite bool_decide_eq_false. tauto. Qed.

Lemma merge_left_not_empty (left right : DataFrame) (left_on right_on : string) :
  df_empty left = false →
  df_empty (merge_left left right left_on right_on) = false.
Proof.
  rewrite !df_empty_false. intros [Hrows Hcols]. split.
  - unfold merge_left; simpl. destruct (rows left) as [|s l]; [done|].
    simpl. destruct (partners _ _ _); done.
  - unfold merge_left; simpl.
    apply set_choose_L in Hcols as [c Hc].
    intros Hempty.
    assert (suffixed "_x" (columns left ∩ columns right) c ∈ (∅ : gset string))
      as Hin; [|set_solver].
    rewrite <- Hempty. apply elem_of_union_l, elem_of_map_2. done.
Qed.

(** Lines 64-78, by cases on the two emptiness checks and on the five
    entry columns. *)
Lemma merge_and_present_eq (str_to_num : string → option Z) (sdf edf : DataFrame) :
  merge_and_present str_to_num sdf edf =
    if df_empty (valid_standings_df sdf edf) || df_empty (valid_entries_df sdf edf)
    then
      ((if df_empty (valid_standings_df sdf edf)
        then [st_error "No valid standings data available after filtering."]
        else []) ++
       (if df_empty (valid_entries_df sdf edf)
        then [st_error "No valid league entries data available after filtering."]
        else []),
       Returned ())
    else
      match filter (λ c, c ∉ columns (valid_entries_df sdf edf)) entry_columns with
      | [] => present str_to_num (merged_df sdf edf)
      | c :: _ => ([], Raised (KeyError c))
      end.
Proof.
  unfold merge_and_present.
  destruct (df_empty (valid_standings_df sdf edf)) eqn:Hs;
    destruct (df_empty (valid_entries_df sdf edf)) eqn:He; try reflexivity.
  rewrite !when_false_bind. cbn [negb andb]. unfold getitems.
  destruct (filter _ entry_columns); [|done].
  unfold mret, ui_ret. rewrite ret_bind. fold (merged_df sdf edf).
  unfold merged_df. by rewrite merge_left_not_empty.
Qed.

Lemma reconcile_eq (str_to_num : string → option Z) (sdf edf : DataFrame) :
  reconcile str_to_num sdf edf
  = prepend (events (report_mismatches sdf edf))
      (merge_and_present str_to_num sdf edf).
Proof.
  unfold reconcile. rewrite report_mismatches_events at 1.
  rewrite bind_returned. by rewrite report_mismatches_events.
Qed.



(** X7. Whatever the league document, the only errors its processing can
    put on the page are the two filter errors; the error of line 78 about
    an empty merged frame is never shown. *)
Theorem merged_empty_error_never_shown
    (str_to_num : string → option Z) (data : details) :
  (∀ msg, st_error msg ∈ events (process str_to_num data) →
     msg = "No valid standings data available after filtering."
     ∨ msg = "No valid league entries data available after filtering.")
  ∧ st_error "Merged Data is empty after attempting to merge valid entries and standings."
      ∉ events (process str_to_num data).
Proof.
  assert (∀ msg, st_error msg ∈ events (process str_to_num data) →
     msg = "No valid standings data available after filtering."
     ∨ msg = "No valid league entries data available after filtering.") as Honly.
  { intros msg. rewrite process_eq.
    assert (st_error msg ∉ raw_page data) as Hraw.
    { unfold raw_page. set_solver. }
    repeat case_decide; unfold events at 1; cbn [fst]; try done.
    rewrite reconcile_eq. unfold prepend, events at 1; cbn [fst].
    rewrite !elem_of_app.
    intros [Hin | [Hin | Hin]]; [done | |].
    - exfalso. revert Hin. rewrite report_mismatches_events. unfold events; simpl.
      repeat case_bool_decide; set_solver.
    - revert Hin. rewrite merge_and_present_eq.
      destruct (df_empty (valid_standings_df _ _));
        destruct (df_empty (valid_entries_df _ _)); simpl;
        try (unfold events; simpl; set_solver).
      destruct (filter _ entry_columns).
      + intros Hin. by destruct (no_st_error_present _ _ _ Hin).
      + unfold events; simpl. set_solver. }
  split; [done|]. intros Hin. by destruct (Honly _ Hin).
Qed.

(** ** The rows of the merge *)


Lemma no_overlap (sdf edf : DataFrame) :
  columns sdf ## list_to_set entry_columns →
  columns (valid_standings_df sdf edf) ∩ list_to_set entry_columns = ∅.
Proof. unfold valid_standings_df, isin_filter; simpl. set_solver. Qed.

Lemma lookup_select_entry (e : gmap string cell) (c : string) :
  filter (λ kv : string * cell, kv.1 ∈ entry_columns) e !! c
  = if decide (c ∈ entry_columns) then e !! c else None.
Proof.
  rewrite map_lookup_filter. destruct (e !! c) as [v|]; simpl.
  - case_decide; [by rewrite option_guard_True | by rewrite option_guard_False].
  - by case_decide.
Qed.

(** ** One row per standing *)

Lemma filter_key_unique {A B} `{EqDecision B} (f : A → B) (k : B) (l : list A) :
  NoDup (f <$> l) → (length (filter (λ x, f x = k) l) ≤ 1)%nat.
Proof.
  induction l as [|x l IH]; simpl; [lia|].
  intros [Hx Hl]%NoDup_cons.
  destruct (decide (f x = k)) as [Hk | Hk].
  - rewrite filter_cons_True by done. simpl.
    rewrite filter_none; [simpl; lia|].
    intros y Hy Hfy. apply Hx. rewrite Hk, <- Hfy.
    apply list_elem_of_fmap. eauto.
  - rewrite filter_cons_False by done. by apply IH.
Qed.

Lemma partners_select_unique (sdf edf : DataFrame) (k : cell) :
  NoDup (series edf "id") →
  (length (partners (select entry_columns (valid_entries_df sdf edf)) "id" k) ≤ 1)%nat.
Proof.
  intros Hnd. unfold partners, select; simpl.
  apply (filter_key_unique (λ e, cell_at e "id")).
  rewrite <- list_fmap_compose.
  assert ((λ e, cell_at e "id") ∘ (λ r, filter (λ kv : string * cell, kv.1 ∈ entry_columns) r)
          <$> filter (λ r, cell_at r "id" ∈ standings_ids sdf) (rows edf)
          = (λ e, cell_at e "id")
          <$> filter (λ r, cell_at r "id" ∈ standings_ids sdf) (rows edf)) as ->.
  { apply list_fmap_ext. intros i r _. simpl.
    apply cell_at_select, id_in_entry_columns. }
  apply (sublist_NoDup _ (series edf "id")); [done|].
  unfold series. apply fmap_sublist, sublist_filter.
Qed.

Lemma Forall2_bind_singleton {A B} (R : B → A → Prop) (f : A → list B) (l : list A) :
  (∀ s, s ∈ l → ∃ r, f s = [r] ∧ R r s) → Forall2 R (l ≫= f) l.
Proof.
  induction l as [|s l IH]; intros Hall; [constructor|].
  rewrite bind_cons. destruct (Hall s) as (r & -> & Hr); [left|].
  simpl. constructor; [done|]. apply IH. intros s' Hs'. apply Hall. by right.
Qed.

(** X9. When no two entries have the same id and no standings column is
    named like one of the five entry columns, the merged frame has one row
    for each filtered standing, in the order of the standings, and that
    row extends the standing: the merge neither duplicates nor reorders. *)
Theorem unique_ids_one_row_per_standing (sdf edf : DataFrame) :
  NoDup (series edf "id") →
  columns sdf ## list_to_set entry_columns →
  Forall2 (λ r s, s ⊆ r)
    (rows (merged_df sdf edf)) (rows (valid_standings_df sdf edf)).
Proof.
  intros Hnd Hdisj. rewrite merged_df_rows_inner. unfold merge_inner.
  cbn [rows columns select].
  rewrite (no_overlap sdf edf Hdisj).
  apply Forall2_bind_singleton. intros s Hs.
  pose proof (valid_standing_has_partner sdf edf s Hs) as Hne.
  pose proof (partners_select_unique sdf edf (cell_at s "league_entry") Hnd) as Hle.
  destruct (partners _ _ _) as [|e [|e' l]]; [done| |simpl in Hle; lia].
  simpl. eexists. split; [done|].
  rewrite !relabel_id by apply suffixed_empty.
  apply map_union_subseteq_l.
Qed.

Lemma unique_ids_witness :
  Forall2 (λ r s, s ⊆ r)
    (rows (merged_df (keyed_standings (standings h2h_league))
             (keyed_entries (league_entries h2h_league))))
    (rows (valid_standings_df (keyed_standings (standings h2h_league))
             (keyed_entries (league_entries h2h_league)))).
Proof.
  apply (unique_ids_one_row_per_standing
           (keyed_standings (standings h2h_league))
           (keyed_entries (league_entries h2h_league))).
  - apply (bool_decide_unpack _). vm_compute. exact I.
  - apply (bool_decide_unpack _). vm_compute. exact I.
Defined.

(** ** The ten largest *)

Lemma insert_desc_perm (c : string) (r : gmap string cell) (l : list (gmap string cell)) :
  insert_desc c r l ≡ₚ r :: l.
Proof.
  induction l as [|r' l IH]; simpl; [done|].
  case_decide; [done|]. rewrite IH. apply Permutation_swap.
Qed.

Lemma insert_desc_sorted (c : string) (r : gmap string cell) (l : list (gmap string cell)) :
  StronglySorted (descending c) l → StronglySorted (descending c) (insert_desc c r l).
Proof.
  induction l as [|r' l IH]; simpl; intros Hl.
  - repeat constructor.
  - apply StronglySorted_cons in Hl as [Hall Hl]. case_decide as Hlt.
    + apply StronglySorted_cons. split; [|by apply StronglySorted_cons].
      constructor; [unfold descending; lia|].
      eapply Forall_impl; [exact Hall|]. unfold descending. intros x Hx. lia.
    + apply StronglySorted_cons. split; [|by apply IH].
      rewrite insert_desc_perm. constructor; [unfold descending; lia|done].
Qed.

Lemma foldl_insert_desc (c : string) (l acc : list (gmap string cell)) :
  StronglySorted (descending c) acc →
  foldl (λ acc r, insert_desc c r acc) acc l ≡ₚ acc ++ l
  ∧ StronglySorted (descending c) (foldl (λ acc r, insert_desc c r acc) acc l).
Proof.
  revert acc. induction l as [|r l IH]; intros acc Hacc; simpl.
  - by rewrite app_nil_r.
  - destruct (IH (insert_desc c r acc)) as [Hperm Hsorted].
    { by apply insert_desc_sorted. }
    split; [|done]. rewrite Hperm, insert_desc_perm.
    simpl. apply Permutation_middle.
Qed.

(** X10. [nlargest n c] keeps [n] rows, or all of them when the frame has
    fewer; the rows it keeps are rows of the frame, each as often at most
    as the frame has it, in descending order of [c]; and no row it leaves
    out has a larger [c] than a row it keeps. *)
Theorem nlargest_keeps_the_largest (n : nat) (c : string) (df : DataFrame) :
  length (rows (nlargest n c df)) = min n (length (rows df))
  ∧ rows (nlargest n c df) ⊆+ rows df
  ∧ StronglySorted (descending c) (rows (nlargest n c df))
  ∧ (∀ r t, r ∈ rows df → r ∉ rows (nlargest n c df) →
       t ∈ rows (nlargest n c df) → descending c t r).
Proof.
  unfold nlargest; cbn [rows].
  destruct (foldl_insert_desc c (rows df) []) as [Hperm Hsorted]; [constructor|].
  simpl in Hperm.
  set (L := foldl (λ acc r, insert_desc c r acc) [] (rows df)) in *.
  rewrite <- (take_drop n L) in Hsorted.
  split_and!.
  - by rewrite length_take, Hperm.
  - rewrite <- Hperm. apply sublist_submseteq, sublist_take.
  - by eapply StronglySorted_app_1_l.
  - intros r t Hr Hnot Ht.
    eapply StronglySorted_app_1_elem_of; [exact Hsorted|done|].
    rewrite <- Hperm, <- (take_drop n L) in Hr.
    apply elem_of_app in Hr as [Hr | Hr]; done.
Qed.

(** ** The page of a merged frame *)

Lemma in_columns_normalize_total (str_to_num : string → option Z) (df : DataFrame) c :
  c ∈ columns df → c ∈ columns (normalize_total str_to_num df).
Proof. unfold normalize_total, assign; simpl. set_solver. Qed.

Lemma highlight_top_scorer_returns (df : DataFrame) :
  "total" ∈ columns df →
  "player_first_name" ∈ columns df →
  "player_last_name" ∈ columns df →
  result (highlight_top_scorer df) = Returned ().
Proof.
  intros Htotal Hfirst Hlast. rewrite highlight_top_scorer_eq by done.
  destruct (series_max _) as [m|] eqn:Hmax; [|done].
  case_decide; [|done].
  destruct (top_scorer_total df m Hmax) as (r & -> & _).
  by rewrite !decide_True.
Qed.

Ltac page_column H :=
  let c := fresh "c" in
  let Hc := fresh "Hc" in
  intros c Hc;
  try apply in_columns_normalize_total;
  apply H; unfold page_columns; set_solver.

Lemma present_eq (str_to_num : string → option Z) (df : DataFrame) :
  (∀ c, c ∈ page_columns → c ∈ columns df) →
  present str_to_num df
  = prepend (sections str_to_num df)
      (highlight_top_scorer (normalize_total str_to_num df)).
Proof.
  intros Hcols. unfold present.
  rewrite !emit_prepend. cbv beta.
  rewrite coerce_total_eq, decide_True by (apply Hcols; unfold page_columns; set_solver).
  rewrite ret_bind.
  repeat first
    [ rewrite emit_prepend
    | rewrite ret_bind
    | rewrite getitems_ok by page_column Hcols
    | rewrite altair_chart_ok by page_column Hcols ].
  rewrite !prepend_prepend. reflexivity.
Qed.

(** X11. On a merged frame that has the seven columns the page reads,
    lines 80-174 raise nothing: the page is the merged frame, the
    standings table, the six charts, each under its heading, and then
    what the points-leader step writes. *)
Theorem present_renders_every_section
    (str_to_num : string → option Z) (df : DataFrame) :
  (∀ c, c ∈ page_columns → c ∈ columns df) →
  events (present str_to_num df)
    = sections str_to_num df
      ++ events (highlight_top_scorer (normalize_total str_to_num df))
  ∧ result (present str_to_num df) = Returned ().
Proof.
  intros Hcols. rewrite present_eq by done. split; [done|].
  unfold prepend, result at 1; cbn [snd].
  apply highlight_top_scorer_returns; apply in_columns_normalize_total, Hcols;
    unfold page_columns; set_solver.
Qed.

Lemma present_witness :
  events (present int_literal
            (merged_df (keyed_standings (standings h2h_league))
               (keyed_entries (league_entries h2h_league))))
    = sections int_literal
        (merged_df (keyed_standings (standings h2h_league))
           (keyed_entries (league_entries h2h_league)))
      ++ events (highlight_top_scorer (reconciled int_literal h2h_league))
  ∧ result (present int_literal
              (merged_df (keyed_standings (standings h2h_league))
                 (keyed_entries (league_entries h2h_league))))
    = Returned ().
Proof.
  apply (present_renders_every_section int_literal
           (merged_df (keyed_standings (standings h2h_league))
              (keyed_entries (league_entries h2h_league)))).
  intros c Hc. unfold page_columns in Hc.
  repeat (apply elem_of_cons in Hc as [-> | Hc];
          [apply (bool_decide_unpack _); vm_compute; exact I|]).
  by apply not_elem_of_nil in Hc.
Defined.

(** ** Documents that render *)





(** ** The keys of the output *)

(** X13. When no standings column is named like one of the five entry
    columns, every row of the output carries the same string as its
    [league_entry] and as its [id]. *)
Theorem output_rows_have_equal_keys
    (str_to_num : string → option Z) (data : details) (r : gmap string cell) :
  columns (keyed_standings (standings data)) ## list_to_set entry_columns →
  r ∈ rows (reconciled str_to_num data) →
  ∃ k, cell_at r "league_entry" = PyStr k ∧ cell_at r "id" = PyStr k.
Proof.
  intros Hdisj (m & Hm & ->)%normalize_total_rows.
  destruct (filtered_rows_joined _ _ m Hm) as (s & e & Hs & He & Hkey & ->).
  rewrite (no_overlap _ _ Hdisj).
  rewrite !relabel_id by apply suffixed_empty.
  apply elem_of_valid_standings in Hs as [Hs _].
  apply elem_of_valid_entries in He as [He _].
  apply keyed_standings_rows in Hs as (s0 & Hs0 & ->).
  apply keyed_entries_rows in He as (e0 & He0 & ->).
  rewrite !cell_at_insert_eq in Hkey. injection Hkey as Hkey.
  exists (standing_key (standings data) s0).
  rewrite !cell_at_insert_ne by done. unfold cell_at. split.
  - erewrite lookup_union_Some_l; [done|]. apply lookup_insert_eq.
  - rewrite lookup_union_r.
    + rewrite lookup_select_entry, decide_True by apply id_in_entry_columns.
      rewrite lookup_insert_eq. simpl. by rewrite Hkey.
    + rewrite lookup_insert_ne by done.
      destruct (s0 !! "id") eqn:Hid; [|done]. exfalso.
      apply (Hdisj "id"); [|apply elem_of_list_to_set, id_in_entry_columns].
      unfold keyed_standings, assign; simpl. apply elem_of_union_r.
      apply (pd_DataFrame_dom _ s0); [done|]. by rewrite Hid.
Qed.

Lemma equal_keys_witness :
  ∃ k, cell_at scenario_row "league_entry" = PyStr k
     ∧ cell_at scenario_row "id" = PyStr k.
Proof.
  apply (output_rows_have_equal_keys int_literal scenario scenario_row).
  - apply (bool_decide_unpack _). vm_compute. exact I.
  - apply list_elem_of_lookup_2 with 0%nat. vm_compute. reflexivity.
Defined.

(** ** The largest total *)

(** X14. On a frame with at least one row, the first of the [n] largest
    rows ([n] not 0) carries the maximum of the column: the first bar of
    the top-ten chart is as high as the leader's total. *)
Theorem largest_comes_first (n : nat) (c : string) (df : DataFrame) :
  n ≠ 0%nat →
  rows df ≠ [] →
  ∃ t, head (rows (nlargest n c df)) = Some t
    ∧ t ∈ rows df
    ∧ series_max (numeric_series df c) = Some (num (cell_at t c)).
Proof.
  intros Hn Hrows. unfold nlargest; cbn [rows].
  destruct (foldl_insert_desc c (rows df) []) as [Hperm Hsorted]; [constructor|].
  simpl in Hperm.
  destruct (foldl _ _ _) as [|t L].
  { symmetry in Hperm. by apply Permutation_nil_r in Hperm. }
  destruct n as [|n]; [done|]. exists t. simpl.
  assert (t ∈ rows df) as Ht by (rewrite <- Hperm; left).
  split_and!; [done..|].
  apply series_max_spec. split.
  - apply elem_of_numeric_series. eauto.
  - intros y (r & Hr & ->)%elem_of_numeric_series.
    rewrite <- Hperm in Hr. apply StronglySorted_cons in Hsorted as [Hall _].
    apply elem_of_cons in Hr as [-> | Hr]; [lia|].
    rewrite Forall_forall in Hall. by apply Hall.
Qed.

Lemma largest_witness :
  ∃ t, head (rows (nlargest 10 "total" (reconciled int_literal h2h_league))) = Some t
    ∧ t ∈ rows (reconciled int_literal h2h_league)
    ∧ series_max (numeric_series (reconciled int_literal h2h_league) "total")
      = Some (num (cell_at t "total")).
Proof.
  apply (largest_comes_first 10 "total" (reconciled int_literal h2h_league)).
  - lia.
  - intros Hnil. apply (f_equal length) in Hnil. vm_compute in Hnil. lia.
Defined.

(** ** A missing entry column *)

Lemma common_id_not_empty (sdf edf : DataFrame) :
  "league_entry" ∈ columns sdf →
  "id" ∈ columns edf →
  (∃ k, k ∈ standings_ids sdf ∧ k ∈ entries_ids edf) →
  df_empty (valid_standings_df sdf edf) = false
  ∧ df_empty (valid_entries_df sdf edf) = false.
Proof.
  intros Hle Hid (k & Hks & Hke). split.
  - apply df_empty_false. split; [|simpl; set_solver].
    apply elem_of_id_set in Hks as (s & Hs & Hk).
    assert (s ∈ rows (valid_standings_df sdf edf)) as Hin.
    { apply elem_of_valid_standings. by rewrite Hk. }
    intros Hnil. rewrite Hnil in Hin. by apply not_elem_of_nil in Hin.
  - apply df_empty_false. split; [|simpl; set_solver].
    apply elem_of_id_set in Hke as (e & He & Hk).
    assert (e ∈ rows (valid_entries_df sdf edf)) as Hin.
    { apply elem_of_valid_entries. by rewrite Hk. }
    intros Hnil. rewrite Hnil in Hin. by apply not_elem_of_nil in Hin.
Qed.

(** X15. When the two frames share an identifier but the entries frame
    lacks one of the five columns line 73 selects, the selection raises a
    [KeyError] for a missing column: no filter error is shown, nothing is
    merged and nothing of the merged frame reaches the page. *)
Theorem missing_entry_column_raises
    (str_to_num : string → option Z) (sdf edf : DataFrame) :
  "league_entry" ∈ columns sdf →
  "id" ∈ columns edf →
  (∃ k, k ∈ standings_ids sdf ∧ k ∈ entries_ids edf) →
  (∃ c, c ∈ entry_columns ∧ c ∉ columns edf) →
  ∃ c, c ∈ entry_columns ∧ (c ∉ columns edf)
    ∧ merge_and_present str_to_num sdf edf = ([], Raised (KeyError c)).
Proof.
  intros Hle Hid Hcommon (c0 & Hc0 & Hn0).
  rewrite merge_and_present_eq.
  destruct (common_id_not_empty sdf edf Hle Hid Hcommon) as [-> ->]. simpl.
  destruct (filter _ entry_columns) as [|c l] eqn:Hf.
  - by destruct (filter_nil_not_elem_of _ _ c0 Hf Hn0).
  - assert (c ∈ filter (λ c, c ∉ columns edf) entry_columns) as Hin
      by (rewrite Hf; left).
    apply list_elem_of_filter in Hin as [Hn Hc]. eauto.
Qed.

Lemma missing_entry_column_witness :
  ∃ c, c ∈ entry_columns
    ∧ (c ∉ columns (keyed_entries (league_entries nameless_league)))
    ∧ merge_and_present int_literal
        (keyed_standings (standings nameless_league))
        (keyed_entries (league_entries nameless_league))
      = ([], Raised (KeyError c)).
Proof.
  apply (missing_entry_column_raises int_literal
           (keyed_standings (standings nameless_league))
           (keyed_entries (league_entries nameless_league))).
  - apply (bool_decide_unpack _). vm_compute. exact I.
  - apply (bool_decide_unpack _). vm_compute. exact I.
  - exists (PyStr "1"). split; apply (bool_decide_unpack _); vm_compute; exact I.
  - exists "joined_time". split; apply (bool_decide_unpack _); vm_compute; exact I.
Defined.

(** ** The standings table on the page *)

Lemma emits_only_bind {A B} (P : st_event → Prop) (m : ui A) (k : A → ui B) :
  emits_only P m → (∀ a, emits_only P (k a)) → emits_only P (m ≫= k).
Proof.
  intros Hm Hk e. destruct m as [evs [a|x]].
  - rewrite bind_returned. unfold events at 1; simpl.
    rewrite elem_of_app. intros [Hin | Hin]; [by apply Hm | by apply (Hk a)].
  - rewrite bind_raised. apply Hm.
Qed.

Lemma emits_only_emit (P : st_event → Prop) (e : st_event) :
  P e → emits_only P (emit e).
Proof.
  intros He e'. unfold emit, events; simpl.
  by intros ->%list_elem_of_singleton.
Qed.

Lemma emits_only_nil {A} (P : st_event → Prop) (o : outcome A) :
  emits_only P ([], o).
Proof. intros e. unfold events; simpl. by intros ?%not_elem_of_nil. Qed.

Lemma emits_only_getitem (P : st_event → Prop) (df : DataFrame) (c : string) :
  emits_only P (getitem df c).
Proof. unfold getitem. case_decide; apply emits_only_nil. Qed.

Lemma emits_only_row_getitem (P : st_event → Prop) (df : DataFrame) r (c : string) :
  emits_only P (row_getitem df r c).
Proof. unfold row_getitem. case_decide; apply emits_only_nil. Qed.

Lemma no_table_altair_chart (title : string) (fields : list string) (df : DataFrame) :
  emits_only no_table (altair_chart title fields df).
Proof.
  unfold altair_chart. destruct (filter _ fields).
  - by apply emits_only_emit.
  - apply emits_only_nil.
Qed.

Ltac no_table :=
  repeat first
    [ apply emits_only_emit; exact I
    | apply emits_only_nil
    | apply emits_only_getitem
    | apply emits_only_row_getitem
    | apply no_table_altair_chart
    | apply emits_only_bind; [|intros ?] ].










